(** * stm32_lcd_ui: touch normaliser and widget dispatch engine

    A shallow embedding of [src/touch_ui.c] and of the registry and touch
    half of [src/lcd_ui.c], followed by the properties the design
    specification states about them.

    Conventions.
    - A C unsigned integer of width w is a [Z] in [0, 2^w); every place where
      the C code narrows a value to such a type is written out with [u8],
      [u16] or [u32].  [int] is 32 bits wide, so the integer promotions of
      the [uint16_t] operands never overflow before they are narrowed.
    - C's [/] is [Z.quot] (truncation).
    - A pointer is an [option] of an address; [None] is [NULL].
    - The widgets live in caller-owned storage: a heap from addresses to
      widget structs.  The registry and the session only hold addresses, so
      two slots may alias one widget.
    - Code the library calls through function pointers (touch callbacks,
      slider callbacks) is user code: its effect on memory is a parameter of
      the development, and every call is appended to a log. *)

From Stdlib Require Import ZArith Lia Bool String.
From stdpp Require Import base option list gmap.

Local Open Scope Z_scope.

(** ** Fixed-width unsigned integers *)

Definition u8 (z : Z) : Z := z mod 256.
Definition u16 (z : Z) : Z := z mod 65536.
Definition u32 (z : Z) : Z := z mod 4294967296.

Definition is_u8 (z : Z) : Prop := 0 <= z < 256.
Definition is_u16 (z : Z) : Prop := 0 <= z < 65536.
Definition is_u32 (z : Z) : Prop := 0 <= z < 4294967296.

(** ** touch_ui.h *)

Inductive touch_ui_event_type_t : Set :=
| touch_ui_event_none
| touch_ui_event_pressed
| touch_ui_event_released
| touch_ui_event_moved
| touch_ui_event_held
| touch_ui_event_double_tap.

Record touch_ui_event_t : Set := mk_touch_ui_event {
  event_type : touch_ui_event_type_t;
  x_position : Z;
  y_position : Z;
  timestamp_value : Z
}.

Record touch_ui_state_t : Set := mk_touch_ui_state {
  last_press_state : bool;
  last_x_position : Z;
  last_y_position : Z;
  last_press_timestamp_value : Z
}.

(** The [driver] member of [touch_ui_context_t] is not read by
    [touch_ui_process_input] and is left out. *)
Record touch_ui_context_t : Set := mk_touch_ui_context {
  internal_state : touch_ui_state_t
}.

Definition set_event_type (t : touch_ui_event_type_t) (e : touch_ui_event_t)
  : touch_ui_event_t :=
  mk_touch_ui_event t (x_position e) (y_position e) (timestamp_value e).

Definition set_last_press_state (b : bool) (s : touch_ui_state_t) : touch_ui_state_t :=
  mk_touch_ui_state b (last_x_position s) (last_y_position s)
    (last_press_timestamp_value s).

Definition set_last_x_position (v : Z) (s : touch_ui_state_t) : touch_ui_state_t :=
  mk_touch_ui_state (last_press_state s) v (last_y_position s)
    (last_press_timestamp_value s).

Definition set_last_y_position (v : Z) (s : touch_ui_state_t) : touch_ui_state_t :=
  mk_touch_ui_state (last_press_state s) (last_x_position s) v
    (last_press_timestamp_value s).

Definition set_last_press_timestamp_value (v : Z) (s : touch_ui_state_t)
  : touch_ui_state_t :=
  mk_touch_ui_state (last_press_state s) (last_x_position s) (last_y_position s) v.

(** ** touch_ui.c *)

(** [touch_ui_init]: the state the normaliser starts from. *)
Definition touch_ui_init : touch_ui_context_t :=
  mk_touch_ui_context (mk_touch_ui_state false 0 0 0).

(** [touch_ui_process_input].  The context pointer may be [NULL]; the result
    is the returned event and the context as the call leaves it. *)
Definition touch_ui_process_input (context : option touch_ui_context_t)
    (x_pos y_pos : Z) (is_pressed : bool) (timestamp : Z)
  : touch_ui_event_t * option touch_ui_context_t :=
  let event_result := mk_touch_ui_event touch_ui_event_none x_pos y_pos timestamp in
  match context with
  | None => (event_result, None)
  | Some context =>
    let st := internal_state context in
    let was_pressed := last_press_state st in
    let press_changed := negb (Bool.eqb was_pressed is_pressed) in
    let '(event_result, st) :=
      if negb was_pressed && is_pressed then
        (set_event_type touch_ui_event_pressed event_result,
         set_last_press_timestamp_value timestamp
           (set_last_y_position y_pos (set_last_x_position x_pos st)))
      else if was_pressed && negb is_pressed then
        (set_event_type touch_ui_event_released event_result, st)
      else if is_pressed && negb press_changed then
        if negb (x_pos =? last_x_position st) || negb (y_pos =? last_y_position st)
        then (set_event_type touch_ui_event_moved event_result, st)
        else (event_result, st)
      else (event_result, st) in
    let st := set_last_press_state is_pressed st in
    let st :=
      if is_pressed
      then set_last_y_position y_pos (set_last_x_position x_pos st)
      else st in
    (event_result, Some (mk_touch_ui_context st))
  end.

(** ** lcd_ui.h *)

(** Addresses of widgets and of user functions. *)
Abbreviation ptr := positive (only parsing).
Abbreviation fn_ptr := positive (only parsing).

Definition LCD_UI_ALIGN_LEFT : Z := 0.
Definition LCD_UI_ALIGN_CENTER : Z := 1.
Definition LCD_UI_ALIGN_RIGHT : Z := 2.

Inductive lcd_ui_widget_type_t : Set :=
| LCD_UI_WIDGET_BUTTON
| LCD_UI_WIDGET_SLIDER
| LCD_UI_WIDGET_PROGRESS_BAR
| LCD_UI_WIDGET_LABEL.

(** [struct lcd_ui_widget].  [text_align] is kept as the integer the enum
    member holds, because [lcd_ui_add_widget] tests it against values no
    enumerator has. *)
Record lcd_ui_widget_t : Type := mk_lcd_ui_widget {
  x : Z;
  y : Z;
  width : Z;
  height : Z;
  type : lcd_ui_widget_type_t;
  on_touch : option fn_ptr;
  user_data : option ptr;
  label_text : option string;
  progress_percent : Z;
  slider_value : Z;
  background_color : Z;
  text_color : Z;
  text_align : Z;
  slider_update_callback : option fn_ptr
}.

(** The part of [lcd_ui_driver_t] the modelled functions consume: the
    answer of [get_screen_size].  The drawing primitives only write to the
    display. *)
Record lcd_ui_driver_t : Set := mk_lcd_ui_driver {
  get_screen_size : Z * Z
}.

(** [struct lcd_ui_context].  [widgets] is the caller's backing array, of
    whatever length the caller allocated. *)
Record lcd_ui_context_t : Type := mk_lcd_ui_context {
  driver : option lcd_ui_driver_t;
  widgets : list (option ptr);
  widget_capacity : Z;
  widget_count : Z;
  screen_width : Z;
  screen_height : Z;
  active_widget : option ptr;
  touch_active : Z
}.

Definition set_text_align (v : Z) (w : lcd_ui_widget_t) : lcd_ui_widget_t :=
  mk_lcd_ui_widget (x w) (y w) (width w) (height w) (type w) (on_touch w)
    (user_data w) (label_text w) (progress_percent w) (slider_value w)
    (background_color w) (text_color w) v (slider_update_callback w).

Definition set_slider_value (v : Z) (w : lcd_ui_widget_t) : lcd_ui_widget_t :=
  mk_lcd_ui_widget (x w) (y w) (width w) (height w) (type w) (on_touch w)
    (user_data w) (label_text w) (progress_percent w) v
    (background_color w) (text_color w) (text_align w) (slider_update_callback w).

Definition set_progress_percent (v : Z) (w : lcd_ui_widget_t) : lcd_ui_widget_t :=
  mk_lcd_ui_widget (x w) (y w) (width w) (height w) (type w) (on_touch w)
    (user_data w) (label_text w) v (slider_value w)
    (background_color w) (text_color w) (text_align w) (slider_update_callback w).

Definition set_widgets (v : list (option ptr)) (c : lcd_ui_context_t) : lcd_ui_context_t :=
  mk_lcd_ui_context (driver c) v (widget_capacity c) (widget_count c)
    (screen_width c) (screen_height c) (active_widget c) (touch_active c).

Definition set_widget_count (v : Z) (c : lcd_ui_context_t) : lcd_ui_context_t :=
  mk_lcd_ui_context (driver c) (widgets c) (widget_capacity c) v
    (screen_width c) (screen_height c) (active_widget c) (touch_active c).

Definition set_active_widget (v : option ptr) (c : lcd_ui_context_t) : lcd_ui_context_t :=
  mk_lcd_ui_context (driver c) (widgets c) (widget_capacity c) (widget_count c)
    (screen_width c) (screen_height c) v (touch_active c).

Definition set_touch_active (v : Z) (c : lcd_ui_context_t) : lcd_ui_context_t :=
  mk_lcd_ui_context (driver c) (widgets c) (widget_capacity c) (widget_count c)
    (screen_width c) (screen_height c) (active_widget c) v.

(** ** Memory, calls into user code, and the monad the code runs in *)

(** What the library and the user code share: the context struct and the
    widget structs. *)
Record memory : Type := mk_memory {
  ctx : lcd_ui_context_t;
  heap : gmap ptr lcd_ui_widget_t
}.

(** Calls that leave the library. *)
Inductive call : Type :=
| CallOnTouch (f : fn_ptr) (widget : ptr) (touch_x touch_y : Z) (data : option ptr)
| CallSliderUpdate (f : fn_ptr) (widget : ptr) (new_value : Z)
| CallRedraw (widget : ptr).

(** Undefined behaviour the C code can run into. *)
Inductive fault : Set :=
| NullDeref
| BadPointer
| OutOfBounds
| DivByZero.

Inductive result (A : Type) : Type :=
| Ok (a : A)
| Fault (f : fault).
Arguments Ok {A} a.
Arguments Fault {A} f.

Record world : Type := mk_world {
  mem : memory;
  log : list call
}.

Definition M (A : Type) : Type := world -> result (A * world).

Definition ret {A} (a : A) : M A := fun s => Ok (a, s).

Definition bind {A B} (c : M A) (k : A -> M B) : M B :=
  fun s => match c s with
           | Ok (a, s') => k a s'
           | Fault f => Fault f
           end.

Definition raise {A} (f : fault) : M A := fun _ => Fault f.

Notation "'do' v <- c ; k" := (bind c (fun v => k))
  (at level 10, v name, c at level 100, k at level 200,
   format "'[v' 'do'  v  <-  c ; '/' k ']'").
Notation "c ;; k" := (bind c (fun _ => k))
  (at level 100, k at level 200, right associativity).

Definition get_ctx : M lcd_ui_context_t := fun s => Ok (ctx (mem s), s).

Definition modify_ctx (f : lcd_ui_context_t -> lcd_ui_context_t) : M unit :=
  fun s => Ok (tt, mk_world (mk_memory (f (ctx (mem s))) (heap (mem s))) (log s)).

(** [*p] for a widget pointer that is known not to be [NULL]. *)
Definition load (p : ptr) : M lcd_ui_widget_t :=
  fun s => match heap (mem s) !! p with
           | Some w => Ok (w, s)
           | None => Fault BadPointer
           end.

Definition store (p : ptr) (w : lcd_ui_widget_t) : M unit :=
  fun s => Ok (tt, mk_world (mk_memory (ctx (mem s)) (<[p := w]> (heap (mem s)))) (log s)).

(** A pointer about to be dereferenced. *)
Definition deref (p : option ptr) : M ptr :=
  match p with
  | Some a => ret a
  | None => raise NullDeref
  end.

(** [ctx->widgets[i]] as an rvalue and as an lvalue. *)
Definition read_slot (i : Z) : M (option ptr) :=
  do c <- get_ctx;
  match widgets c !! Z.to_nat i with
  | Some slot => ret slot
  | None => raise OutOfBounds
  end.

Definition write_slot (i : Z) (v : option ptr) : M unit :=
  do c <- get_ctx;
  match widgets c !! Z.to_nat i with
  | Some _ => modify_ctx (set_widgets (<[Z.to_nat i := v]> (widgets c)))
  | None => raise OutOfBounds
  end.

Definition emit (e : call) : M unit :=
  fun s => Ok (tt, mk_world (mem s) (log s ++ [e])).

(** The user code behind the function pointers stored in widgets: what a
    touch callback and a slider-update callback do to the shared memory.
    The context argument of the C callbacks is the one context of [memory]. *)
Class UserCode : Type := {
  run_on_touch : fn_ptr -> ptr -> Z -> Z -> option ptr -> memory -> memory;
  run_slider_update : fn_ptr -> ptr -> Z -> memory -> memory
}.

(** ** lcd_ui.c *)

(** Every function below takes the context through a pointer and returns at
    once when that pointer is [NULL]; the computations here are those of a
    call with a context, on the memory that holds it.  Arguments that only
    reach the display driver (the colour of [lcd_ui_reset_screen]) are left
    out. *)

Section lcd_ui.
Context {user : UserCode}.

(** [f(ctx, widget, touch_x, touch_y, user_data)] through a
    [lcd_ui_touch_callback_t]. *)
Definition call_on_touch (f : fn_ptr) (p : ptr) (touch_x touch_y : Z)
    (data : option ptr) : M unit :=
  fun s => Ok (tt, mk_world (run_on_touch f p touch_x touch_y data (mem s))
                     (log s ++ [CallOnTouch f p touch_x touch_y data])).

(** [f(ctx, widget, new_value)] through [slider_update_callback]. *)
Definition call_slider_update (f : fn_ptr) (p : ptr) (new_value : Z) : M unit :=
  fun s => Ok (tt, mk_world (run_slider_update f p new_value (mem s))
                     (log s ++ [CallSliderUpdate f p new_value])).

(** [lcd_ui_redraw_widget]: [draw_widget] reads the widget through a
    pointer to const and talks to the display driver only. *)
Definition lcd_ui_redraw_widget (p : ptr) : M unit :=
  do c <- get_ctx;
  match driver c with
  | None => ret tt
  | Some _ => do _w <- load p; emit (CallRedraw p)
  end.

Definition lcd_ui_init (drv : option lcd_ui_driver_t)
    (widget_buffer : option (list (option ptr))) (capacity : Z) : M unit :=
  match drv, widget_buffer with
  | Some d, Some buffer =>
    modify_ctx (fun _ =>
      mk_lcd_ui_context (Some d) buffer capacity 0
        (fst (get_screen_size d)) (snd (get_screen_size d)) None 0)
  | _, _ => ret tt
  end.

(** The loop of [lcd_ui_clear_widgets]; [n] iterations are left and [i] is
    the loop counter. *)
Fixpoint clear_loop (n : nat) (i : Z) : M unit :=
  match n with
  | O => ret tt
  | S n' => write_slot i None ;; clear_loop n' (u8 (i + 1))
  end.

Definition lcd_ui_clear_widgets : M unit :=
  modify_ctx (set_widget_count 0) ;;
  do c <- get_ctx;
  clear_loop (Z.to_nat (widget_capacity c)) 0.

Definition lcd_ui_reset_screen : M unit :=
  do c <- get_ctx;
  match driver c with
  | None => ret tt
  | Some _ => lcd_ui_clear_widgets
  end.

Definition lcd_ui_add_widget (widget : option ptr) : M unit :=
  match widget with
  | None => ret tt
  | Some wp =>
    do c <- get_ctx;
    if widget_count c >=? widget_capacity c then ret tt
    else
      write_slot (widget_count c) (Some wp) ;;
      modify_ctx (set_widget_count (u8 (widget_count c + 1))) ;;
      do w <- load wp;
      if text_align w >? LCD_UI_ALIGN_RIGHT then
        do c' <- get_ctx;
        do slot <- read_slot (widget_count c');
        do q <- deref slot;
        do w' <- load q;
        store q (set_text_align LCD_UI_ALIGN_LEFT w')
      else ret tt
  end.

Definition default_slider_touch_handler (widget : option ptr)
    (touch_x touch_y : Z) (data : option ptr) : M unit :=
  match widget with
  | None => ret tt
  | Some p =>
    do w <- load p;
    let knob_size := height w in
    let knob_half := u16 (knob_size ÷ 2) in
    let min_x := u16 (x w + knob_half) in
    let max_x := u16 (x w + width w - knob_half) in
    let range_x := u16 (max_x - min_x) in
    let clamped_x :=
      if touch_x <? min_x then min_x
      else if touch_x >? max_x then max_x
      else touch_x in
    let relative_x := u16 (clamped_x - min_x) in
    if range_x =? 0 then raise DivByZero
    else
      let new_slider_value := u32 (relative_x * 100) ÷ range_x in
      store p (set_slider_value new_slider_value w) ;;
      match slider_update_callback w with
      | Some f => call_slider_update f p new_slider_value
      | None => ret tt
      end ;;
      match data with
      | Some linked_progress =>
        do w2 <- load p;
        do lp <- load linked_progress;
        store linked_progress
          (set_progress_percent (u8 (u32 (100 - slider_value w2))) lp) ;;
        lcd_ui_redraw_widget linked_progress
      | None => ret tt
      end ;;
      lcd_ui_redraw_widget p
  end.

(** The hit-test loop of [lcd_ui_handle_touch]: [n] iterations are left
    before [i] reaches [widget_count], which the body does not write. *)
Fixpoint hit_test_loop (n : nat) (i : Z) (touch_x touch_y : Z) : M unit :=
  match n with
  | O => ret tt
  | S n' =>
    do slot <- read_slot i;
    do p <- deref slot;
    do w <- load p;
    let margin :=
      match type w with
      | LCD_UI_WIDGET_BUTTON => 6
      | LCD_UI_WIDGET_SLIDER => u16 (height w ÷ 5)
      | _ => 2
      end in
    let x0 := if x w >? margin then u16 (x w - margin) else 0 in
    let y0 := if y w >? margin then u16 (y w - margin) else 0 in
    let x1 := u16 (x w + width w + margin) in
    let y1 := u16 (y w + height w + margin) in
    if (touch_x >=? x0) && (touch_x <? x1) && (touch_y >=? y0) && (touch_y <? y1)
    then modify_ctx (set_active_widget (Some p))
    else hit_test_loop n' (u8 (i + 1)) touch_x touch_y
  end.

(** [lcd_ui_handle_touch] is given in the three blocks its comments name,
    and then as a whole. *)

(** "New press: find the widget under the touch" (the body of
    [if (!ctx->touch_active)]). *)
Definition find_widget_under_touch (touch_x touch_y : Z) : M unit :=
  modify_ctx (set_touch_active 1) ;;
  modify_ctx (set_active_widget None) ;;
  do c <- get_ctx;
  hit_test_loop (Z.to_nat (widget_count c)) 0 touch_x touch_y.

(** "Continue sending to active widget while pressed". *)
Definition send_to_active_widget (touch_x touch_y : Z) : M unit :=
  do c <- get_ctx;
  match active_widget c with
  | Some p =>
    do w <- load p;
    match type w with
    | LCD_UI_WIDGET_SLIDER =>
      match on_touch w with
      | Some f => call_on_touch f p touch_x touch_y (user_data w)
      | None => default_slider_touch_handler (Some p) touch_x touch_y (user_data w)
      end
    | _ => ret tt
    end
  | None => ret tt
  end.

(** "On release: trigger button if it was the active widget". *)
Definition trigger_button_on_release (touch_x touch_y : Z) : M unit :=
  do c <- get_ctx;
  match active_widget c with
  | Some p =>
    do w <- load p;
    match type w, on_touch w with
    | LCD_UI_WIDGET_BUTTON, Some f =>
      call_on_touch f p touch_x touch_y (user_data w)
    | _, _ => ret tt
    end
  | None => ret tt
  end.

Definition lcd_ui_handle_touch (touch_x touch_y : Z) (is_pressed : Z) : M unit :=
  if negb (is_pressed =? 0) then
    do c <- get_ctx;
    (if touch_active c =? 0
     then find_widget_under_touch touch_x touch_y
     else ret tt) ;;
    send_to_active_widget touch_x touch_y
  else
    trigger_button_on_release touch_x touch_y ;;
    modify_ctx (set_touch_active 0) ;;
    modify_ctx (set_active_widget None).

End lcd_ui.

(** ** Sequences of touch ticks *)

(** One call of [lcd_ui_handle_touch]: the arguments the caller passes. *)
Record tick : Set := mk_tick {
  tick_x : Z;
  tick_y : Z;
  tick_pressed : Z
}.

Fixpoint run_touches {user : UserCode} (ticks : list tick) : M unit :=
  match ticks with
  | [] => ret tt
  | t :: rest =>
    lcd_ui_handle_touch (tick_x t) (tick_y t) (tick_pressed t) ;;
    run_touches rest
  end.

(** ** Vocabulary of the properties *)

(** The touch session of a context: the latched widget and the flag. *)
Definition session (m : memory) : option ptr * Z :=
  (active_widget (ctx m), touch_active (ctx m)).

(** The session invariant as the specification's testable property words it,
    and the direction of it that its data model section gives. *)
Definition session_iff (m : memory) : Prop :=
  active_widget (ctx m) <> None <-> touch_active (ctx m) <> 0.

Definition session_only_if (m : memory) : Prop :=
  active_widget (ctx m) <> None -> touch_active (ctx m) <> 0.

(** User code that does not write the session fields of the context. *)
Class UserCodeKeepsSession (user : UserCode) : Prop := {
  on_touch_keeps_session :
    forall f p tx ty d m, session (run_on_touch f p tx ty d m) = session m;
  slider_update_keeps_session :
    forall f p v m, session (run_slider_update f p v m) = session m
}.

(** User code whose slider-update callbacks neither free a widget nor
    write the [slider_value] of one. *)
Class UserCodeKeepsSliderValues (user : UserCode) : Prop := {
  slider_update_keeps_values :
    forall f p v m q w,
      heap m !! q = Some w ->
      exists w', heap (run_slider_update f p v m) !! q = Some w'
                 /\ slider_value w' = slider_value w
}.

(** The members of a widget hold values of their C types. *)
Definition widget_typed (w : lcd_ui_widget_t) : Prop :=
  is_u16 (x w) /\ is_u16 (y w) /\ is_u16 (width w) /\ is_u16 (height w).

(** [ps] are the registered widgets, in registration order: the registry
    holds exactly them in its first [widget_count] slots, and each is a live,
    well-typed widget. *)
Definition registered (m : memory) (ps : list ptr) : Prop :=
  widget_count (ctx m) = Z.of_nat (length ps)
  /\ is_u8 (widget_count (ctx m))
  /\ (forall (i : nat) p, ps !! i = Some p -> widgets (ctx m) !! i = Some (Some p))
  /\ (forall p, p ∈ ps -> exists w, heap m !! p = Some w /\ widget_typed w).

(** *** Hit boxes *)

Definition spec_margin (w : lcd_ui_widget_t) : Z :=
  match type w with
  | LCD_UI_WIDGET_BUTTON => 6
  | LCD_UI_WIDGET_SLIDER => height w ÷ 5
  | LCD_UI_WIDGET_PROGRESS_BAR => 2
  | LCD_UI_WIDGET_LABEL => 2
  end.

(** A box is (left, top, right, bottom); right and bottom are exclusive. *)
Definition box : Set := Z * Z * Z * Z.

Definition box_contains (b : box) (tx ty : Z) : bool :=
  let '(x0, y0, x1, y1) := b in
  (x0 <=? tx) && (tx <? x1) && (y0 <=? ty) && (ty <? y1).

(** The expanded bounding box in the specification's words: the rectangle
    enlarged by the margin on every side, the top-left corner clamped at 0. *)
Definition spec_expanded_box (w : lcd_ui_widget_t) : box :=
  let m := spec_margin w in
  (Z.max 0 (x w - m), Z.max 0 (y w - m), x w + width w + m, y w + height w + m).

(** The same box with its far corner held in 16 bits. *)
Definition wrapped_expanded_box (w : lcd_ui_widget_t) : box :=
  let m := spec_margin w in
  (Z.max 0 (x w - m), Z.max 0 (y w - m),
   (x w + width w + m) mod 65536, (y w + height w + m) mod 65536).

(** The far corner of the expanded box fits in 16 bits. *)
Definition box_fits (w : lcd_ui_widget_t) : Prop :=
  x w + width w + spec_margin w <= 65535 /\ y w + height w + spec_margin w <= 65535.

(** First widget, in the order of [ps], whose box contains the point. *)
Fixpoint first_hit (h : gmap ptr lcd_ui_widget_t) (bx : lcd_ui_widget_t -> box)
    (ps : list ptr) (tx ty : Z) : option ptr :=
  match ps with
  | [] => None
  | p :: rest =>
    match h !! p with
    | Some w => if box_contains (bx w) tx ty then Some p else first_hit h bx rest tx ty
    | None => first_hit h bx rest tx ty
    end
  end.

(** *** Slider mapping, in the specification's words *)

Definition spec_min_x (w : lcd_ui_widget_t) : Z := x w + height w ÷ 2.
Definition spec_max_x (w : lcd_ui_widget_t) : Z := x w + width w - height w ÷ 2.

Definition spec_clamped_x (w : lcd_ui_widget_t) (tx : Z) : Z :=
  Z.max (spec_min_x w) (Z.min tx (spec_max_x w)).

Definition spec_slider_value (w : lcd_ui_widget_t) (tx : Z) : Z :=
  (spec_clamped_x w tx - spec_min_x w) * 100 ÷ (spec_max_x w - spec_min_x w).

(** The upper usable bound fits in 16 bits. *)
Definition slider_fits (w : lcd_ui_widget_t) : Prop :=
  x w + width w - height w ÷ 2 <= 65535.

(** The stored value of the widget at [p], if there is one. *)
Definition slider_value_at (s : world) (p : ptr) : option Z :=
  slider_value <$> heap (mem s) !! p.

(** ** Vocabulary of the proofs *)

(** [lcd_ui_add_widget] called once per element, in order. *)
Fixpoint add_widgets (ws : list (option ptr)) : M unit :=
  match ws with
  | [] => ret tt
  | w :: rest => lcd_ui_add_widget w ;; add_widgets rest
  end.

(** A computation that leaves the session fields as it found them. *)
Definition keeps_session {A} (c : M A) : Prop :=
  forall s a s', c s = Ok (a, s') -> session (mem s') = session (mem s).

(** Total correctness of a computation from a state. *)
Definition ok_with {A} (c : M A) (s : world) (Q : A -> world -> Prop) : Prop :=
  match c s with
  | Ok (a, s') => Q a s'
  | Fault _ => False
  end.

(** [s] with another latched widget. *)
Definition with_active (a : option ptr) (s : world) : world :=
  mk_world (mk_memory (set_active_widget a (ctx (mem s))) (heap (mem s))) (log s).

(** The widget at [p] holds value [v], and the pointer in [live] is live. *)
Definition holds (p : ptr) (v : Z) (live : option ptr) (s : world) : Prop :=
  slider_value_at s p = Some v
  /\ forall q, live = Some q -> is_Some (heap (mem s) !! q).

(** The state after a release tick over a latched button: the callback has
    run once, on the release coordinates, and the session is cleared. *)
Definition released_after {user : UserCode} (f : fn_ptr) (p : ptr) (tx ty : Z)
    (d : option ptr) (s : world) : world :=
  let m := run_on_touch f p tx ty d (mem s) in
  mk_world (mk_memory (set_active_widget None (set_touch_active 0 (ctx m))) (heap m))
    (log s ++ [CallOnTouch f p tx ty d]).

(** The state after a successful insertion of a widget whose alignment is
    in range. *)
Definition appended (p : ptr) (s : world) : world :=
  let c := ctx (mem s) in
  mk_world
    (mk_memory
       (set_widget_count (u8 (widget_count c + 1))
          (set_widgets (<[Z.to_nat (widget_count c) := Some p]> (widgets c)) c))
       (heap (mem s)))
    (log s).

(** The value the default slider handler leaves in the slider at [p]. *)
Definition stored_slider_value {user : UserCode} (s : world) (p : ptr)
    (tx ty : Z) (data : option ptr) : option Z :=
  match default_slider_touch_handler (Some p) tx ty data s with
  | Ok (_, s') => slider_value_at s' p
  | Fault _ => None
  end.

(** The state a computation leaves, the start state if it faults. *)
Definition state_after {A} (c : M A) (s : world) : world :=
  match c s with
  | Ok (_, s') => s'
  | Fault _ => s
  end.

(** ** Concrete scenarios *)

Definition set_text_color (v : Z) (w : lcd_ui_widget_t) : lcd_ui_widget_t :=
  mk_lcd_ui_widget (x w) (y w) (width w) (height w) (type w) (on_touch w)
    (user_data w) (label_text w) (progress_percent w) (slider_value w)
    (background_color w) v (text_align w) (slider_update_callback w).

(** User code of a small application: a touch callback recolours the text
    of its widget; a slider-update callback mirrors the value into the
    [progress_percent] member of the slider. *)
Definition demo_user : UserCode := {|
  run_on_touch f p _ _ _ m :=
    mk_memory (ctx m) (alter (set_text_color (Z.pos f)) p (heap m));
  run_slider_update _ p v m :=
    mk_memory (ctx m) (alter (set_progress_percent (u8 v)) p (heap m))
|}.

Definition demo_driver : lcd_ui_driver_t := mk_lcd_ui_driver (800, 480).

(** A context struct before [lcd_ui_init] has run. *)
Definition blank_ctx : lcd_ui_context_t :=
  mk_lcd_ui_context None [] 0 0 0 0 None 0.

(** Button A of scenario 2, the slider of scenario 3 with a linked progress
    bar, and that bar. *)
Definition button_a : lcd_ui_widget_t :=
  mk_lcd_ui_widget 50 50 80 40 LCD_UI_WIDGET_BUTTON (Some 7%positive) None
    (Some "OK"%string) 0 0 0 0 LCD_UI_ALIGN_CENTER None.

Definition slider_s : lcd_ui_widget_t :=
  mk_lcd_ui_widget 0 200 100 20 LCD_UI_WIDGET_SLIDER None (Some 3%positive)
    None 0 0 0 0 LCD_UI_ALIGN_LEFT (Some 9%positive).

Definition bar_p : lcd_ui_widget_t :=
  mk_lcd_ui_widget 0 240 100 10 LCD_UI_WIDGET_PROGRESS_BAR None None
    None 0 0 0 0 LCD_UI_ALIGN_LEFT None.

(** Button B of scenario 4: it overlaps button A. *)
Definition button_b : lcd_ui_widget_t :=
  mk_lcd_ui_widget 40 40 60 60 LCD_UI_WIDGET_BUTTON (Some 8%positive) None
    (Some "B"%string) 0 0 0 0 LCD_UI_ALIGN_LEFT None.

Definition demo_heap : gmap ptr lcd_ui_widget_t :=
  <[1%positive := button_a]>
    (<[2%positive := slider_s]>
       (<[3%positive := bar_p]> {[ 4%positive := button_b ]})).

Definition demo_start : world := mk_world (mk_memory blank_ctx demo_heap) [].

Definition demo_boot : M unit :=
  lcd_ui_init (Some demo_driver) (Some (replicate 5 None)) 5 ;;
  add_widgets [Some 1%positive; Some 2%positive; Some 3%positive].

Definition demo_booted : world := state_after demo_boot demo_start.

(** Scenario 4: the registry holds [B; A]. *)
Definition overlap_boot : M unit :=
  lcd_ui_init (Some demo_driver) (Some (replicate 5 None)) 5 ;;
  add_widgets [Some 4%positive; Some 1%positive].

Definition overlap_booted : world := state_after overlap_boot demo_start.

(** A button whose right edge is 65535, and a one-pixel-high slider whose
    right edge is 65535. *)
Definition edge_button : lcd_ui_widget_t :=
  mk_lcd_ui_widget 65525 10 10 10 LCD_UI_WIDGET_BUTTON (Some 7%positive) None
    None 0 0 0 0 LCD_UI_ALIGN_LEFT None.

Definition edge_slider : lcd_ui_widget_t :=
  mk_lcd_ui_widget 65436 0 100 1 LCD_UI_WIDGET_SLIDER None None
    None 0 0 0 0 LCD_UI_ALIGN_LEFT None.

Definition edge_start (w : lcd_ui_widget_t) : world :=
  mk_world (mk_memory blank_ctx {[ 1%positive := w ]}) [].

Definition edge_boot : M unit :=
  lcd_ui_init (Some demo_driver) (Some [None]) 1 ;;
  lcd_ui_add_widget (Some 1%positive).

(** Two labels; the first carries an alignment no enumerator has. *)
Definition label_bad : lcd_ui_widget_t :=
  mk_lcd_ui_widget 10 10 100 20 LCD_UI_WIDGET_LABEL None None
    (Some "title"%string) 0 0 0 0 7 None.

Definition label_ok : lcd_ui_widget_t :=
  mk_lcd_ui_widget 10 40 100 20 LCD_UI_WIDGET_LABEL None None
    (Some "status"%string) 0 0 0 0 LCD_UI_ALIGN_CENTER None.

Definition labels_start : world :=
  mk_world (mk_memory blank_ctx
              (<[1%positive := label_bad]> {[ 2%positive := label_ok ]})) [].

(** ** lcd_ui_colours.h *)

Record argb_colour_t : Set := mk_argb_colour {
  alpha_value : Z;
  red_value : Z;
  green_value : Z;
  blue_value : Z
}.

Definition make_argb_colour (alpha red green blue : Z) : Z :=
  let colour_argb := 0 in
  let colour_argb := Z.lor colour_argb (u32 (Z.shiftl alpha 24)) in
  let colour_argb := Z.lor colour_argb (u32 (Z.shiftl red 16)) in
  let colour_argb := Z.lor colour_argb (u32 (Z.shiftl green 8)) in
  let colour_argb := Z.lor colour_argb blue in
  colour_argb.

Definition decompose_argb_colour (argb_value : Z) : argb_colour_t :=
  mk_argb_colour
    (u8 (Z.land (Z.shiftr argb_value 24) 255))
    (u8 (Z.land (Z.shiftr argb_value 16) 255))
    (u8 (Z.land (Z.shiftr argb_value 8) 255))
    (u8 (Z.land argb_value 255)).

(** [scale_colour_by_percentage] and [scale_colour_by_factor] work in
    single-precision floating point, which is not modelled here: the result
    of [scale_colour_by_percentage] is a parameter. *)
Class ColourScaling : Type := {
  scale_colour_by_percentage : Z -> Z -> Z
}.

Definition darken_colour {scaling : ColourScaling} (argb_value amount_value : Z) : Z :=
  let amount_value := if amount_value >? 100 then 100 else amount_value in
  let target_percentage := u8 (u32 (100 - amount_value)) in
  scale_colour_by_percentage argb_value target_percentage.

Definition lighten_colour {scaling : ColourScaling} (argb_value amount_value : Z) : Z :=
  let total := u16 (u32 (100 + amount_value)) in
  let total := if total >? 200 then 200 else total in
  scale_colour_by_percentage argb_value (u8 total).

(** ** Rendering (lcd_ui.c, lcd_ui.h) *)

(** What [draw_widget] asks of the display driver. *)
Inductive draw_call : Type :=
| DrawRect (rx ry rw rh colour : Z)
| DrawText (tx ty : Z) (text : string) (text_colour background_colour : Z) (align : Z).

(** The answers of the driver's [get_font_width] and [get_font_height]. *)
Class FontMetrics : Type := {
  get_font_width : Z;
  get_font_height : Z
}.

(** [draw_widget], on the context and the widget struct its arguments point
    to ([None] for a [NULL] widget): the driver calls it makes, in order.
    The product [text_len * font_w] is taken in [int]. *)
Definition draw_widget {font : FontMetrics} {scaling : ColourScaling}
    (context : lcd_ui_context_t) (widget : option lcd_ui_widget_t) : list draw_call :=
  match driver context, widget with
  | Some _, Some widget =>
    match type widget with
    | LCD_UI_WIDGET_BUTTON =>
      DrawRect (x widget) (y widget) (width widget) (height widget)
        (background_color widget)
      :: match label_text widget with
         | Some text =>
           let font_w := get_font_width in
           let font_h := get_font_height in
           let text_len := u16 (Z.of_nat (String.length text)) in
           let text_width := u16 (text_len * font_w) in
           let text_x :=
             if text_align widget =? LCD_UI_ALIGN_CENTER
             then u16 (x widget + u32 (width widget - text_width) ÷ 2)
             else if text_align widget =? LCD_UI_ALIGN_RIGHT
             then u16 (x widget + width widget - text_width)
             else x widget in
           let text_y := u16 (y widget + u32 (height widget - font_h) ÷ 2) in
           [DrawText text_x text_y text (text_color widget)
              (background_color widget) LCD_UI_ALIGN_LEFT]
         | None => []
         end
    | LCD_UI_WIDGET_LABEL =>
      match label_text widget with
      | Some text =>
        [DrawText (x widget) (y widget) text (text_color widget)
           (background_color widget) (text_align widget)]
      | None => []
      end
    | LCD_UI_WIDGET_PROGRESS_BAR =>
      let fill_width := u16 (u32 (progress_percent widget * width widget) ÷ 100) in
      [DrawRect (x widget) (y widget) (width widget) (height widget)
         (background_color widget);
       DrawRect (x widget) (y widget) fill_width (height widget) (text_color widget)]
    | LCD_UI_WIDGET_SLIDER =>
      let knob_size := height widget in
      let track_height := u16 (height widget ÷ 3) in
      let track_y := u16 (y widget + u32 (height widget - track_height) ÷ 2) in
      let usable_width := u16 (width widget - knob_size) in
      let knob_x := u16 (x widget + u32 (slider_value widget * usable_width) ÷ 100) in
      let knob_x :=
        if knob_x + knob_size >? x widget + width widget
        then u16 (x widget + width widget - knob_size)
        else knob_x in
      let knob_color := lighten_colour (text_color widget) 40 in
      [DrawRect (x widget) (y widget) (width widget) (height widget)
         (background_color widget);
       DrawRect (x widget) track_y (width widget) track_height (text_color widget);
       DrawRect knob_x (y widget) knob_size knob_size knob_color]
    end
  | _, _ => []
  end.

(** The loop of [lcd_ui_render]: [n] iterations are left and [i] is the
    loop counter; the value is the sequence of driver calls made. *)
Fixpoint render_loop {font : FontMetrics} {scaling : ColourScaling}
    (n : nat) (i : Z) : M (list draw_call) :=
  match n with
  | O => ret []
  | S n' =>
    do c <- get_ctx;
    do slot <- read_slot i;
    do calls <-
      match slot with
      | Some p => do w <- load p; ret (draw_widget c (Some w))
      | None => ret (draw_widget c None)
      end;
    do rest <- render_loop n' (u8 (i + 1));
    ret (calls ++ rest)
  end.

Definition lcd_ui_render {font : FontMetrics} {scaling : ColourScaling}
  : M (list draw_call) :=
  do c <- get_ctx;
  match driver c with
  | None => ret []
  | Some _ => render_loop (Z.to_nat (widget_count c)) 0
  end.

(** ** Runs of the touch normaliser, and the polling loop of the README *)

(** One reading the touch driver delivered. *)
Record sample : Set := mk_sample {
  sample_x : Z;
  sample_y : Z;
  sample_pressed : bool;
  sample_time : Z
}.

(** [touch_ui_process_input] called on each sample in turn: the events
    returned and the context left. *)
Fixpoint process_samples (context : touch_ui_context_t) (samples : list sample)
  : list touch_ui_event_t * touch_ui_context_t :=
  match samples with
  | [] => ([], context)
  | sm :: rest =>
    let '(evt, after) :=
      touch_ui_process_input (Some context) (sample_x sm) (sample_y sm)
        (sample_pressed sm) (sample_time sm) in
    let '(events, final) :=
      process_samples (match after with Some c => c | None => context end) rest in
    (evt :: events, final)
  end.

Definition is_event (t : touch_ui_event_type_t) (e : touch_ui_event_t) : bool :=
  match t, event_type e with
  | touch_ui_event_none, touch_ui_event_none
  | touch_ui_event_pressed, touch_ui_event_pressed
  | touch_ui_event_released, touch_ui_event_released
  | touch_ui_event_moved, touch_ui_event_moved
  | touch_ui_event_held, touch_ui_event_held
  | touch_ui_event_double_tap, touch_ui_event_double_tap => true
  | _, _ => false
  end.

(** How many of [events] are of type [t]. *)
Fixpoint count_events (t : touch_ui_event_type_t) (events : list touch_ui_event_t) : Z :=
  match events with
  | [] => 0
  | e :: rest => Z.b2z (is_event t e) + count_events t rest
  end.

(** One pass through the body of the [while] loop of [touch_task] in the
    README; [None] is a pass in which [touch_ui_read_state] returned false.
    The [bool] the loop hands to [lcd_ui_handle_touch] converts to 1 or 0. *)
Definition touch_task_step {user : UserCode} (touch_ctx : touch_ui_context_t)
    (reading : option sample) : M touch_ui_context_t :=
  match reading with
  | None => ret touch_ctx
  | Some sm =>
    let '(evt, after) :=
      touch_ui_process_input (Some touch_ctx) (sample_x sm) (sample_y sm)
        (sample_pressed sm) (sample_time sm) in
    (if negb (is_event touch_ui_event_none evt)
     then lcd_ui_handle_touch (sample_x sm) (sample_y sm) (Z.b2z (sample_pressed sm))
     else ret tt) ;;
    ret (match after with Some c => c | None => touch_ctx end)
  end.

Fixpoint touch_task {user : UserCode} (touch_ctx : touch_ui_context_t)
    (readings : list (option sample)) : M touch_ui_context_t :=
  match readings with
  | [] => ret touch_ctx
  | r :: rest =>
    do touch_ctx' <- touch_task_step touch_ctx r;
    touch_task touch_ctx' rest
  end.

(** ** Concrete inputs for the further properties *)

(** Two of the named colours of lcd_ui_colours.h. *)
Definition colour_gray : Z := 0xFF808080.
Definition colour_yellow : Z := 0xFFFFFF00.

(** The metrics of a 17 by 24 font. *)
Definition demo_font : FontMetrics := {|
  get_font_width := 17;
  get_font_height := 24
|}.

(** A stand-in for the floating-point scaling, exact in the integers; it
    only serves to instantiate statements that hold for every scaling. *)
Definition demo_scaling : ColourScaling := {|
  scale_colour_by_percentage argb_value percentage_value :=
    let c := decompose_argb_colour argb_value in
    make_argb_colour (alpha_value c)
      (Z.min 255 (red_value c * percentage_value / 100))
      (Z.min 255 (green_value c * percentage_value / 100))
      (Z.min 255 (blue_value c * percentage_value / 100))
|}.

(** The progress bar at 40 percent, the slider at 50, and a slider as wide
    as it is high. *)
Definition bar_40 : lcd_ui_widget_t := set_progress_percent 40 bar_p.
Definition slider_50 : lcd_ui_widget_t := set_slider_value 50 slider_s.

Definition square_slider : lcd_ui_widget_t :=
  mk_lcd_ui_widget 10 10 20 20 LCD_UI_WIDGET_SLIDER None None
    None 0 0 0 0 LCD_UI_ALIGN_LEFT None.

(** The demo registry with the slider latched by a press at (50, 210), and
    after a press at (300, 300), where nothing is. *)
Definition slider_latched : world :=
  state_after (lcd_ui_handle_touch (user := demo_user) 50 210 1) demo_booted.

Definition nothing_pressed : world :=
  state_after (lcd_ui_handle_touch (user := demo_user) 300 300 1) demo_booted.

(** A context whose capacity of 5 exceeds its two-slot buffer. *)
Definition short_buffer : world :=
  state_after (lcd_ui_init (Some demo_driver) (Some [None; None]) 5) demo_start.

(** A tap on button A followed by a drag, as the touch driver reports them. *)
Definition demo_readings : list (option sample) :=
  [Some (mk_sample 60 60 true 10); Some (mk_sample 60 60 true 20);
   Some (mk_sample 60 60 false 30); None;
   Some (mk_sample 50 210 true 40); Some (mk_sample 70 210 true 50)].

(** * Properties *)

(** ** Touch signal normaliser *)

(** C10.  For every input, a [NULL] context included, the event returned by
    [touch_ui_process_input] carries the x, y and timestamp of the current
    sample; a released event therefore reports the sample's coordinates, not
    the stored last-pressed ones. *)
Theorem touch_ui_event_carries_sample context x_pos y_pos is_pressed timestamp :
  let e := fst (touch_ui_process_input context x_pos y_pos is_pressed timestamp) in
  x_position e = x_pos /\ y_position e = y_pos /\ timestamp_value e = timestamp.
Proof.
  destruct context as [[[was lx ly lts]]|]; cbn; [|done].
  destruct was, is_pressed; cbn; try done.
  destruct (x_pos =? lx), (y_pos =? ly); done.
Qed.

(** C8.  The transition rules of [touch_ui_process_input], one equation per
    rule, over every stored state (lx, ly, lts) and every sample (x, y, t):
    up then down gives a pressed event and latches (x, y, t); down then up
    gives a released event; down then down gives a moved event when (x, y)
    changed and none when it did not; up then up gives none.  No held or
    double-tap event is produced, the stored flag becomes the new flag, and
    the stored (x, y) become the new (x, y) exactly when the sample is
    pressed. *)
Theorem touch_ui_process_input_transitions lx ly lts x_pos y_pos timestamp :
  let before was := Some (mk_touch_ui_context (mk_touch_ui_state was lx ly lts)) in
  let process was is_pressed :=
    touch_ui_process_input (before was) x_pos y_pos is_pressed timestamp in
  process false true
  = (mk_touch_ui_event touch_ui_event_pressed x_pos y_pos timestamp,
     Some (mk_touch_ui_context (mk_touch_ui_state true x_pos y_pos timestamp)))
  /\ process true false
     = (mk_touch_ui_event touch_ui_event_released x_pos y_pos timestamp,
        Some (mk_touch_ui_context (mk_touch_ui_state false lx ly lts)))
  /\ process true true
     = (mk_touch_ui_event
          (if decide (x_pos = lx /\ y_pos = ly)
           then touch_ui_event_none else touch_ui_event_moved)
          x_pos y_pos timestamp,
        Some (mk_touch_ui_context (mk_touch_ui_state true x_pos y_pos lts)))
  /\ process false false
     = (mk_touch_ui_event touch_ui_event_none x_pos y_pos timestamp,
        Some (mk_touch_ui_context (mk_touch_ui_state false lx ly lts)))
  /\ forall was is_pressed,
       let e := fst (process was is_pressed) in
       event_type e <> touch_ui_event_held
       /\ event_type e <> touch_ui_event_double_tap
       /\ match snd (process was is_pressed) with
          | Some c =>
            let st := internal_state c in
            last_press_state st = is_pressed
            /\ (last_x_position st, last_y_position st)
               = (if is_pressed then (x_pos, y_pos) else (lx, ly))
          | None => False
          end.
Proof.
  cbv zeta. unfold touch_ui_process_input. cbn.
  assert (negb (x_pos =? lx) || negb (y_pos =? ly)
          = if decide (x_pos = lx /\ y_pos = ly) then false else true) as E.
  { destruct (Z.eqb_spec x_pos lx), (Z.eqb_spec y_pos ly);
      case_decide; cbn; try done; exfalso; tauto. }
  rewrite E. repeat split; try (by case_decide).
  all: destruct was, is_pressed; cbn; try rewrite E; try case_decide; done.
Qed.

(** ** Arithmetic of the fixed-width types *)

Lemma u16_id z : is_u16 z -> u16 z = z.
Proof. unfold is_u16, u16. intros H. by apply Z.mod_small. Qed.

Lemma u8_id z : is_u8 z -> u8 z = z.
Proof. unfold is_u8, u8. intros H. by apply Z.mod_small. Qed.

Lemma u32_id z : is_u32 z -> u32 z = z.
Proof. unfold is_u32, u32. intros H. by apply Z.mod_small. Qed.

Lemma quot_bounds a b : 0 <= a -> 0 < b -> 0 <= a ÷ b <= a.
Proof.
  intros Ha Hb. rewrite Z.quot_div_nonneg by lia. split.
  - apply Z.div_pos; lia.
  - apply Z.div_le_upper_bound; nia.
Qed.

(** ** The monad *)

Lemma bind_inv {A B} (c : M A) (k : A -> M B) s b s' :
  bind c k s = Ok (b, s') -> exists a s1, c s = Ok (a, s1) /\ k a s1 = Ok (b, s').
Proof. unfold bind. destruct (c s) as [[a s1]|f]; [eauto|discriminate]. Qed.

Lemma bind_ok {A B} (c : M A) (k : A -> M B) s a s1 :
  c s = Ok (a, s1) -> bind c k s = k a s1.
Proof. unfold bind. by intros ->. Qed.

Lemma ok_with_bind {A B} (c : M A) (k : A -> M B) s Q :
  ok_with c s (fun a s1 => ok_with (k a) s1 Q) -> ok_with (bind c k) s Q.
Proof. unfold ok_with, bind. by destruct (c s) as [[a s1]|f]. Qed.

Lemma ok_with_mono {A} (c : M A) s (Q Q' : A -> world -> Prop) :
  (forall a s', Q a s' -> Q' a s') -> ok_with c s Q -> ok_with c s Q'.
Proof. unfold ok_with. intros H. destruct (c s) as [[a s1]|f]; auto. Qed.

Lemma ok_with_elim {A} (c : M A) s Q :
  ok_with c s Q -> exists a s', c s = Ok (a, s') /\ Q a s'.
Proof. unfold ok_with. destruct (c s) as [[a s1]|f]; [eauto|done]. Qed.

(** ** The session fields are framed *)

Create HintDb session discriminated.

Lemma keeps_session_ret {A} (a : A) : keeps_session (ret a).
Proof. intros s b s' [= _ <-]. reflexivity. Qed.

Lemma keeps_session_raise {A} f : keeps_session (@raise A f).
Proof. intros s b s' [=]. Qed.

Lemma keeps_session_bind {A B} (c : M A) (k : A -> M B) :
  keeps_session c -> (forall a, keeps_session (k a)) -> keeps_session (bind c k).
Proof.
  intros Hc Hk s b s'. unfold bind.
  destruct (c s) as [[a s1]|f] eqn:E; [|discriminate].
  intros Hk1. rewrite (Hk _ _ _ _ Hk1). eauto.
Qed.

Lemma keeps_session_get_ctx : keeps_session get_ctx.
Proof. intros s b s' [= _ <-]. reflexivity. Qed.

Lemma keeps_session_load p : keeps_session (load p).
Proof.
  intros s b s'. unfold load. destruct (_ !! _); [|discriminate]. by intros [= _ <-].
Qed.

Lemma keeps_session_store p w : keeps_session (store p w).
Proof. intros s b s' [= _ <-]. reflexivity. Qed.

Lemma keeps_session_emit e : keeps_session (emit e).
Proof. intros s b s' [= _ <-]. reflexivity. Qed.

Lemma keeps_session_deref p : keeps_session (deref p).
Proof. destruct p; [apply keeps_session_ret|apply keeps_session_raise]. Qed.

Lemma keeps_session_modify_ctx f :
  (forall c, active_widget (f c) = active_widget c
             /\ touch_active (f c) = touch_active c) ->
  keeps_session (modify_ctx f).
Proof.
  intros Hf s b s' [= _ <-]. unfold session. cbn.
  by destruct (Hf (ctx (mem s))) as [-> ->].
Qed.

#[local] Hint Resolve keeps_session_ret keeps_session_raise keeps_session_get_ctx
  keeps_session_load keeps_session_store keeps_session_emit keeps_session_deref
  : session.

(** One step through a computation whose parts keep the session. *)
Ltac session_step :=
  match goal with
  | |- keeps_session (lcd_ui_redraw_widget _) => solve [auto with session]
  | |- keeps_session (default_slider_touch_handler _ _ _ _) =>
    solve [auto with session]
  | |- keeps_session (read_slot _) => solve [auto with session]
  | |- keeps_session (write_slot _ _) => solve [auto with session]
  | |- keeps_session (bind _ _) => apply keeps_session_bind; [|intros ?]
  | |- keeps_session (match ?v with _ => _ end) => destruct v
  | |- keeps_session (modify_ctx _) => by apply keeps_session_modify_ctx
  | |- keeps_session _ => solve [auto with session]
  end.

Lemma keeps_session_read_slot i : keeps_session (read_slot i).
Proof. unfold read_slot. repeat session_step. Qed.

Lemma keeps_session_write_slot i v : keeps_session (write_slot i v).
Proof. unfold write_slot. repeat session_step. Qed.

#[local] Hint Resolve keeps_session_read_slot keeps_session_write_slot : session.

Lemma keeps_session_add_widget w : keeps_session (lcd_ui_add_widget w).
Proof. unfold lcd_ui_add_widget. repeat session_step. Qed.

Lemma keeps_session_add_widgets ws : keeps_session (add_widgets ws).
Proof.
  induction ws; cbn [add_widgets]; repeat session_step.
  apply keeps_session_add_widget.
Qed.

Section session_frame.
Context {user : UserCode} {keeps : UserCodeKeepsSession user}.

Lemma keeps_session_call_on_touch f p tx ty d :
  keeps_session (call_on_touch f p tx ty d).
Proof. intros s b s' [= _ <-]. cbn. apply on_touch_keeps_session. Qed.

Lemma keeps_session_call_slider_update f p v :
  keeps_session (call_slider_update f p v).
Proof. intros s b s' [= _ <-]. cbn. apply slider_update_keeps_session. Qed.

Hint Resolve keeps_session_call_on_touch keeps_session_call_slider_update
  : session.

Lemma keeps_session_redraw p : keeps_session (lcd_ui_redraw_widget p).
Proof. unfold lcd_ui_redraw_widget. repeat session_step. Qed.

Hint Resolve keeps_session_redraw : session.

Lemma keeps_session_default_slider w tx ty d :
  keeps_session (default_slider_touch_handler w tx ty d).
Proof.
  unfold default_slider_touch_handler. repeat (session_step; cbv zeta).
Qed.

Hint Resolve keeps_session_default_slider : session.

Lemma keeps_session_send_to_active tx ty :
  keeps_session (send_to_active_widget tx ty).
Proof. unfold send_to_active_widget. repeat session_step. Qed.

(** The hit-test loop writes [active_widget] at most, and only to a
    widget. *)
Lemma hit_test_loop_frame n : forall i tx ty s s',
  hit_test_loop n i tx ty s = Ok (tt, s') ->
  s' = s \/ exists p, s' = with_active (Some p) s.
Proof.
  induction n as [|n IH]; intros i tx ty s s'; cbn [hit_test_loop].
  - intros [= <-]. by left.
  - intros H.
    apply bind_inv in H as (slot & s1 & H1 & H).
    apply bind_inv in H as (p & s2 & H2 & H).
    apply bind_inv in H as (w & s3 & H3 & H).
    assert (s1 = s) as ->.
    { revert H1. unfold read_slot, bind, get_ctx.
      destruct (_ !! _); [|discriminate]. by intros [= _ <-]. }
    assert (s2 = s) as ->.
    { destruct slot; [|discriminate]. by injection H2 as _ <-. }
    assert (s3 = s) as ->.
    { revert H3. unfold load. destruct (_ !! _); [|discriminate]. by intros [= _ <-]. }
    cbv zeta in H.
    destruct (_ && _) in H.
    + injection H as <-. right. by exists p.
    + eauto.
Qed.

Lemma find_widget_under_touch_session tx ty s s' :
  find_widget_under_touch tx ty s = Ok (tt, s') ->
  touch_active (ctx (mem s')) = 1.
Proof.
  unfold find_widget_under_touch. intros H.
  apply bind_inv in H as ([] & s1 & [= <-] & H).
  apply bind_inv in H as ([] & s2 & [= <-] & H).
  apply bind_inv in H as (c & s3 & [= <- <-] & H).
  apply hit_test_loop_frame in H as [->|[p ->]]; reflexivity.
Qed.

Lemma pressed_tick_touch_active tx ty pr s s' :
  pr <> 0 -> lcd_ui_handle_touch tx ty pr s = Ok (tt, s') ->
  touch_active (ctx (mem s')) <> 0.
Proof.
  intros Hpr. unfold lcd_ui_handle_touch.
  destruct (Z.eqb_spec pr 0) as [|_]; [done|]. cbn [negb]. intros H.
  apply bind_inv in H as (c & s1 & [= <- <-] & H).
  apply bind_inv in H as ([] & s2 & H1 & H).
  apply keeps_session_send_to_active in H. injection H as _ ->.
  destruct (Z.eqb_spec (touch_active (ctx (mem s))) 0) as [E|E].
  - apply find_widget_under_touch_session in H1. lia.
  - by injection H1 as <-.
Qed.

Lemma pressed_tick_running tx ty pr s s' :
  pr <> 0 -> touch_active (ctx (mem s)) <> 0 ->
  lcd_ui_handle_touch tx ty pr s = Ok (tt, s') ->
  session (mem s') = session (mem s).
Proof.
  intros Hpr Hact. unfold lcd_ui_handle_touch.
  destruct (Z.eqb_spec pr 0) as [|_]; [done|]. cbn [negb]. intros H.
  apply bind_inv in H as (c & s1 & [= <- <-] & H).
  apply bind_inv in H as ([] & s2 & H1 & H).
  destruct (Z.eqb_spec (touch_active (ctx (mem s))) 0) as [E|E]; [done|].
  injection H1 as <-. by apply keeps_session_send_to_active in H.
Qed.

Lemma release_tick_session tx ty s s' :
  lcd_ui_handle_touch tx ty 0 s = Ok (tt, s') -> session (mem s') = (None, 0).
Proof.
  unfold lcd_ui_handle_touch. cbn [Z.eqb negb]. intros H.
  apply bind_inv in H as ([] & s1 & _ & H).
  apply bind_inv in H as ([] & s2 & [= <-] & H).
  by injection H as <-.
Qed.

Lemma tick_session_only_if tx ty pr s s' :
  lcd_ui_handle_touch tx ty pr s = Ok (tt, s') -> session_only_if (mem s').
Proof.
  intros H. destruct (Z.eq_dec pr 0) as [->|Hpr].
  - apply release_tick_session in H. injection H as H1 H2.
    unfold session_only_if. by rewrite H1.
  - intros _. eapply pressed_tick_touch_active; eauto.
Qed.

Lemma run_touches_session_only_if ticks : forall s s',
  session_only_if (mem s) -> run_touches ticks s = Ok (tt, s') ->
  session_only_if (mem s').
Proof.
  induction ticks as [|t ticks IH]; intros s s' Hs; cbn [run_touches].
  - by intros [= <-].
  - intros H. apply bind_inv in H as ([] & s1 & H1 & H).
    eapply IH; [|done]. eapply tick_session_only_if; eauto.
Qed.

(** C1 (amended).  On a context set up by [lcd_ui_init] and any number of
    [lcd_ui_add_widget] calls, after every sequence of presses and releases
    dispatched through [lcd_ui_handle_touch], [active_widget] is non-none
    only if [touch_active] is true.  (User callbacks are taken not to write
    the two session fields.) *)
Theorem session_active_only_while_touching d buffer capacity ws ticks s s' :
  (lcd_ui_init (Some d) (Some buffer) capacity ;;
   add_widgets ws ;;
   run_touches ticks) s = Ok (tt, s') ->
  session_only_if (mem s').
Proof.
  intros H.
  apply bind_inv in H as ([] & s1 & H1 & H).
  apply bind_inv in H as ([] & s2 & H2 & H).
  eapply run_touches_session_only_if; [|done].
  apply keeps_session_add_widgets in H2.
  injection H1 as <-. unfold session_only_if. injection H2 as -> ->. done.
Qed.

(** C2.  Drag-lock: once a press tick has left a widget [p] latched as
    [active_widget], every run of further ticks with [is_pressed] true,
    whatever their coordinates and whatever else is registered there,
    leaves [active_widget] at [p]. *)
Theorem drag_lock t0 ticks s0 s1 s' p :
  tick_pressed t0 <> 0 ->
  lcd_ui_handle_touch (tick_x t0) (tick_y t0) (tick_pressed t0) s0 = Ok (tt, s1) ->
  active_widget (ctx (mem s1)) = Some p ->
  Forall (fun t => tick_pressed t <> 0) ticks ->
  run_touches ticks s1 = Ok (tt, s') ->
  active_widget (ctx (mem s')) = Some p.
Proof.
  intros Hpr H0 Hp Hticks. apply pressed_tick_touch_active in H0; [|done].
  clear s0 Hpr. revert s1 H0 Hp.
  induction Hticks as [|t ticks Ht _ IH]; intros s1 Hact Hp; cbn [run_touches].
  - by intros [= <-].
  - intros H. apply bind_inv in H as ([] & s2 & H1 & H).
    pose proof (pressed_tick_running _ _ _ _ _ Ht Hact H1) as Hs.
    injection Hs as Ha Hb. eapply IH; [| |done]; congruence.
Qed.
End session_frame.

(** ** Hit test *)

Lemma spec_margin_bounds w : widget_typed w -> 0 <= spec_margin w < 65536.
Proof.
  intros (_ & _ & _ & Hh). unfold is_u16 in Hh. unfold spec_margin.
  destruct (type w); try lia.
  pose proof (quot_bounds (height w) 5). lia.
Qed.

(** The test of the hit-test loop is containment in the 16-bit box. *)
Lemma hit_test_condition w tx ty margin :
  widget_typed w ->
  margin = match type w with
           | LCD_UI_WIDGET_BUTTON => 6
           | LCD_UI_WIDGET_SLIDER => u16 (height w ÷ 5)
           | _ => 2
           end ->
  (tx >=? (if x w >? margin then u16 (x w - margin) else 0))
  && (tx <? u16 (x w + width w + margin))
  && (ty >=? (if y w >? margin then u16 (y w - margin) else 0))
  && (ty <? u16 (y w + height w + margin))
  = box_contains (wrapped_expanded_box w) tx ty.
Proof.
  intros Hw Hmargin. pose proof (spec_margin_bounds w Hw) as Hm.
  destruct Hw as (Hx & Hy & Hwd & Hh). unfold is_u16 in *.
  assert (margin = spec_margin w) as ->.
  { subst margin. unfold spec_margin in *. destruct (type w); try done.
    apply u16_id. unfold is_u16. lia. }
  unfold wrapped_expanded_box, box_contains, u16.
  rewrite !Z.geb_leb.
  assert (forall a, 0 <= a < 65536 ->
            (if a >? spec_margin w then (a - spec_margin w) mod 65536 else 0)
            = Z.max 0 (a - spec_margin w)) as E.
  { intros a Ha. destruct (Z.gtb_spec a (spec_margin w)).
    - rewrite Z.mod_small; lia.
    - lia. }
  by rewrite !E.
Qed.

Lemma wrapped_box_fits w :
  widget_typed w -> box_fits w -> wrapped_expanded_box w = spec_expanded_box w.
Proof.
  intros Hw [Hx Hy]. pose proof (spec_margin_bounds w Hw) as Hm.
  destruct Hw as (? & ? & ? & ?). unfold is_u16 in *.
  unfold wrapped_expanded_box, spec_expanded_box.
  rewrite !Z.mod_small by lia. done.
Qed.

Lemma first_hit_ext h bx1 bx2 ps tx ty :
  (forall p w, p ∈ ps -> h !! p = Some w -> bx1 w = bx2 w) ->
  first_hit h bx1 ps tx ty = first_hit h bx2 ps tx ty.
Proof.
  induction ps as [|p ps IH]; intros H; cbn [first_hit]; [done|].
  rewrite IH by (intros; eapply H; [by right|done]).
  destruct (h !! p) as [w|] eqn:E; [|done].
  by rewrite (H p w) by (done || by left).
Qed.

(** What [first_hit] returns is the first widget in the order of [ps] whose
    box contains the point, and nothing if there is none. *)
Lemma first_hit_Some h bx ps tx ty p :
  first_hit h bx ps tx ty = Some p ->
  exists (i : nat) w,
    ps !! i = Some p /\ h !! p = Some w /\ box_contains (bx w) tx ty = true
    /\ forall (j : nat) q v, (j < i)%nat -> ps !! j = Some q -> h !! q = Some v ->
                           box_contains (bx v) tx ty = false.
Proof.
  revert p. induction ps as [|q ps IH]; intros p; cbn [first_hit]; [done|].
  destruct (h !! q) as [w|] eqn:E.
  - destruct (box_contains (bx w) tx ty) eqn:B.
    + intros [= <-]. exists 0%nat, w. repeat split; try done. intros; lia.
    + intros (i & w' & H1 & H2 & H3 & H4)%IH. exists (S i), w'. repeat split; try done.
      intros [|j] q' v Hj; cbn; [intros [= <-]; congruence|].
      apply H4. lia.
  - intros (i & w' & H1 & H2 & H3 & H4)%IH. exists (S i), w'. repeat split; try done.
    intros [|j] q' v Hj; cbn; [intros [= <-]; congruence|].
    apply H4. lia.
Qed.

Lemma first_hit_None h bx ps tx ty :
  first_hit h bx ps tx ty = None ->
  forall q v, q ∈ ps -> h !! q = Some v -> box_contains (bx v) tx ty = false.
Proof.
  induction ps as [|p ps IH]; cbn [first_hit]; intros H q v Hq; [by apply elem_of_nil in Hq|].
  apply elem_of_cons in Hq as [->|Hq].
  - intros E. rewrite E in H. by destruct (box_contains _ _ _).
  - destruct (h !! p) as [w|]; [destruct (box_contains (bx w) tx ty); [done|]|]; by apply IH.
Qed.


Lemma hit_test_loop_spec ps : forall i tx ty s,
  (forall (k : nat) p, ps !! k = Some p ->
     widgets (ctx (mem s)) !! (Z.to_nat i + k)%nat = Some (Some p)) ->
  (forall p, p ∈ ps -> exists w, heap (mem s) !! p = Some w /\ widget_typed w) ->
  0 <= i -> i + Z.of_nat (length ps) <= 255 ->
  hit_test_loop (length ps) i tx ty s
  = Ok (tt, match first_hit (heap (mem s)) wrapped_expanded_box ps tx ty with
            | Some p => with_active (Some p) s
            | None => s
            end).
Proof.
  induction ps as [|p ps IH]; intros i tx ty s Hslots Hheap Hi Hn; [done|].
  cbn [length hit_test_loop first_hit].
  destruct (Hheap p) as (w & Hp & Hw); [by left|].
  assert (read_slot i s = Ok (Some p, s)) as H1.
  { unfold read_slot, bind, get_ctx.
    specialize (Hslots 0%nat p eq_refl). rewrite Nat.add_0_r in Hslots.
    by rewrite Hslots. }
  rewrite (bind_ok _ _ _ _ _ H1). cbn [deref].
  rewrite (bind_ok _ _ s p s eq_refl).
  assert (load p s = Ok (w, s)) as H2 by (unfold load; by rewrite Hp).
  rewrite (bind_ok _ _ _ _ _ H2), Hp. cbv zeta.
  rewrite (hit_test_condition w tx ty _ Hw eq_refl).
  destruct (box_contains _ _ _); [done|].
  cbn [length] in Hn. rewrite u8_id by (unfold is_u8; lia).
  apply IH; [|by intros; apply Hheap; right|lia|lia].
  intros k q Hk. replace (Z.to_nat (i + 1) + k)%nat with (Z.to_nat i + S k)%nat by lia.
  by apply Hslots.
Qed.

Lemma find_widget_under_touch_spec tx ty s ps :
  registered (mem s) ps ->
  exists s1,
    find_widget_under_touch tx ty s = Ok (tt, s1)
    /\ active_widget (ctx (mem s1))
       = first_hit (heap (mem s)) wrapped_expanded_box ps tx ty
    /\ touch_active (ctx (mem s1)) = 1.
Proof.
  intros (Hcount & Hu8 & Hslots & Hheap). unfold is_u8 in Hu8.
  unfold find_widget_under_touch.
  set (s0 := mk_world (mk_memory (set_active_widget None (set_touch_active 1 (ctx (mem s))))
                         (heap (mem s))) (log s)).
  assert (hit_test_loop (length ps) 0 tx ty s0 = _) as H
    by (apply hit_test_loop_spec; [done|done|lia|lia]).
  eexists. split.
  - unfold bind, modify_ctx, get_ctx. cbn. rewrite Hcount, Nat2Z.id. apply H.
  - cbn. by destruct (first_hit _ _ _ _ _).
Qed.

Section hit_claim.
Context {user : UserCode} {keeps : UserCodeKeepsSession user}.

(** C3 (amended).  On a press tick while no touch is active, the widget
    that becomes active is the first one, in registration order, whose
    expanded box contains the touch point, where the box is the rectangle
    enlarged by the per-type margin (Button 6, Slider height/5, others 2),
    its top-left corner clamped at 0 and its far corner
    (x + width + margin, y + height + margin) reduced modulo 65536; an
    earlier-registered widget wins over a later one, and no widget becomes
    active if no box contains the point.  Where the far corners of the
    registered widgets do not exceed 65535, this box is the plain enlarged
    rectangle. *)
Theorem press_selects_first_hit tx ty pr s ps :
  pr <> 0 -> touch_active (ctx (mem s)) = 0 -> registered (mem s) ps ->
  let h := heap (mem s) in
  let hit := first_hit h wrapped_expanded_box ps tx ty in
  (exists s1, find_widget_under_touch tx ty s = Ok (tt, s1)
              /\ active_widget (ctx (mem s1)) = hit)
  /\ (forall s', lcd_ui_handle_touch tx ty pr s = Ok (tt, s') ->
                 active_widget (ctx (mem s')) = hit)
  /\ ((forall p w, p ∈ ps -> h !! p = Some w -> box_fits w) ->
      hit = first_hit h spec_expanded_box ps tx ty)
  /\ (forall p, hit = Some p ->
        exists (i : nat) w,
          ps !! i = Some p /\ h !! p = Some w
          /\ box_contains (wrapped_expanded_box w) tx ty = true
          /\ forall (j : nat) q v, (j < i)%nat -> ps !! j = Some q -> h !! q = Some v ->
               box_contains (wrapped_expanded_box v) tx ty = false)
  /\ (hit = None ->
        forall q v, q ∈ ps -> h !! q = Some v ->
          box_contains (wrapped_expanded_box v) tx ty = false).
Proof.
  intros Hpr Hidle Hreg. cbv zeta.
  destruct (find_widget_under_touch_spec tx ty s ps Hreg) as (s1 & Hfind & Hact & _).
  split; [by exists s1|]. split; [|split; [|split]].
  - intros s'. unfold lcd_ui_handle_touch.
    destruct (Z.eqb_spec pr 0) as [|_]; [done|]. cbn [negb]. intros H.
    apply bind_inv in H as (c & s2 & [= <- <-] & H).
    rewrite Hidle in H. cbn [Z.eqb] in H.
    rewrite (bind_ok _ _ _ _ _ Hfind) in H.
    apply keeps_session_send_to_active in H. injection H as -> _. done.
  - intros Hfits. apply first_hit_ext. intros p w Hp Hw.
    destruct Hreg as (_ & _ & _ & Hheap). destruct (Hheap p Hp) as (w' & Hw' & Ht).
    apply wrapped_box_fits; [congruence|by eapply Hfits].
  - intros p. apply first_hit_Some.
  - apply first_hit_None.
Qed.
End hit_claim.


(** ** Default slider handler *)

Section slider.
Context {user : UserCode} {keeps : UserCodeKeepsSliderValues user}.

Lemma holds_redraw p v live q s :
  holds p v live s -> is_Some (heap (mem s) !! q) ->
  ok_with (lcd_ui_redraw_widget q) s (fun _ => holds p v live).
Proof.
  intros H [w Hq]. unfold lcd_ui_redraw_widget, ok_with, bind, get_ctx, load, emit.
  destruct (driver _); [|done]. by rewrite Hq.
Qed.

Lemma holds_notify p v live cb s :
  holds p v live s ->
  ok_with (match cb with
           | Some f => call_slider_update f p v
           | None => ret tt
           end) s (fun _ => holds p v live).
Proof.
  intros [Hv Hlive]. destruct cb as [f|]; [|done].
  unfold ok_with, call_slider_update, holds, slider_value_at. cbn. split.
  - unfold slider_value_at in Hv.
    destruct (heap (mem s) !! p) as [w|] eqn:E; [|done].
    destruct (slider_update_keeps_values f p v (mem s) p w E) as (w' & -> & Hw').
    cbn in *. congruence.
  - intros q Hq. destruct (Hlive q Hq) as [w E].
    destruct (slider_update_keeps_values f p v (mem s) q w E) as (w' & -> & _). done.
Qed.

Lemma holds_link p v data s :
  holds p v data s ->
  ok_with (match data with
           | Some linked_progress =>
             do w2 <- load p;
             do lp <- load linked_progress;
             store linked_progress
               (set_progress_percent (u8 (u32 (100 - slider_value w2))) lp) ;;
             lcd_ui_redraw_widget linked_progress
           | None => ret tt
           end) s (fun _ => holds p v data).
Proof.
  intros [Hv Hlive]. destruct data as [q|]; [|done].
  destruct (Hlive q eq_refl) as [lp Hq].
  unfold slider_value_at in Hv.
  destruct (heap (mem s) !! p) as [w2|] eqn:Hp; [|done].
  apply ok_with_bind. unfold ok_with at 1, load. rewrite Hp.
  apply ok_with_bind. unfold ok_with at 1. rewrite Hq.
  apply ok_with_bind. unfold ok_with at 1, store.
  apply holds_redraw; cbn.
  - split.
    + unfold slider_value_at. cbn. destruct (decide (q = p)) as [->|Hne].
      * rewrite lookup_insert_eq. cbn in *. congruence.
      * rewrite lookup_insert_ne by done. by rewrite Hp.
    + intros q' [= <-]. cbn. rewrite lookup_insert_eq. done.
  - rewrite lookup_insert_eq. done.
Qed.

Lemma slider_arith w tx :
  widget_typed w -> 2 * (height w ÷ 2) < width w -> slider_fits w ->
  let knob_half := u16 (height w ÷ 2) in
  let min_x := u16 (x w + knob_half) in
  let max_x := u16 (x w + width w - knob_half) in
  let range_x := u16 (max_x - min_x) in
  let clamped_x :=
    if tx <? min_x then min_x else if tx >? max_x then max_x else tx in
  range_x <> 0
  /\ u32 (u16 (clamped_x - min_x) * 100) ÷ range_x = spec_slider_value w tx.
Proof.
  intros (Hx & Hy & Hwd & Hh) Hrange Hfits knob_half min_x max_x range_x clamped_x.
  unfold is_u16, slider_fits in *.
  pose proof (quot_bounds (height w) 2 ltac:(lia) ltac:(lia)) as Hk.
  assert (knob_half = height w ÷ 2) as Ek by (apply u16_id; unfold is_u16; lia).
  assert (min_x = spec_min_x w) as Emin.
  { subst min_x. rewrite Ek. apply u16_id. unfold is_u16, spec_min_x. lia. }
  assert (max_x = spec_max_x w) as Emax.
  { subst max_x. rewrite Ek. apply u16_id. unfold is_u16, spec_max_x. lia. }
  unfold spec_slider_value, spec_clamped_x.
  assert (clamped_x = Z.max (spec_min_x w) (Z.min tx (spec_max_x w))) as Ec.
  { subst clamped_x. rewrite Emin, Emax. unfold spec_min_x, spec_max_x.
    destruct (Z.ltb_spec tx (x w + height w ÷ 2)); [lia|].
    destruct (Z.gtb_spec tx (x w + width w - height w ÷ 2)); lia. }
  assert (range_x = spec_max_x w - spec_min_x w) as Er.
  { subst range_x. rewrite Emin, Emax. unfold spec_min_x, spec_max_x.
    apply u16_id. unfold is_u16. lia. }
  rewrite Er, Ec, Emin. clear Ek Emin Emax Ec Er knob_half min_x max_x range_x clamped_x.
  unfold spec_min_x, spec_max_x in *.
  split; [lia|].
  rewrite u16_id by (unfold is_u16; lia).
  rewrite u32_id by (unfold is_u32; lia).
  done.
Qed.

(** The handler stores the value of the specification's formula, for a
    slider whose usable range is not empty and does not wrap. *)
Lemma default_slider_stores s p w tx ty data :
  heap (mem s) !! p = Some w -> widget_typed w ->
  2 * (height w ÷ 2) < width w -> slider_fits w ->
  (forall q, data = Some q -> is_Some (heap (mem s) !! q)) ->
  exists s',
    default_slider_touch_handler (Some p) tx ty data s = Ok (tt, s')
    /\ slider_value_at s' p = Some (spec_slider_value w tx).
Proof.
  intros Hp Hw Hrange Hfits Hdata.
  destruct (slider_arith w tx Hw Hrange Hfits) as [Hne Hval]. cbv zeta in Hne, Hval.
  enough (ok_with (default_slider_touch_handler (Some p) tx ty data) s
            (fun _ s' => slider_value_at s' p = Some (spec_slider_value w tx))) as H.
  { apply ok_with_elim in H as ([] & s' & H1 & H2). eauto. }
  unfold default_slider_touch_handler.
  apply ok_with_bind. unfold ok_with at 1, load. rewrite Hp. cbv zeta.
  match goal with |- context [?a =? 0] => destruct (Z.eqb_spec a 0) as [E|_] end; [done|].
  rewrite Hval.
  apply ok_with_bind. unfold ok_with at 1, store.
  set (s1 := mk_world _ _).
  assert (holds p (spec_slider_value w tx) data s1) as H1.
  { split.
    - unfold slider_value_at. subst s1. cbn. by rewrite lookup_insert_eq.
    - intros q Hq. subst s1. cbn. destruct (decide (p = q)) as [->|Hne'].
      + by rewrite lookup_insert_eq.
      + rewrite lookup_insert_ne by done. by apply Hdata. }
  apply ok_with_bind.
  eapply ok_with_mono; [|apply (holds_notify _ _ _ _ _ H1)]. cbn beta.
  intros [] s2 H2. apply ok_with_bind.
  eapply ok_with_mono; [|apply (holds_link _ _ _ _ H2)]. cbn beta.
  intros [] s3 H3.
  eapply ok_with_mono; [|apply (holds_redraw _ _ _ p _ H3)].
  - by intros [] s4 [H4 _].
  - destruct H3 as [H3 _]. unfold slider_value_at in H3.
    by destruct (heap (mem s3) !! p).
Qed.

Lemma spec_slider_value_mono w tx1 tx2 :
  spec_min_x w < spec_max_x w -> tx1 <= tx2 ->
  spec_slider_value w tx1 <= spec_slider_value w tx2.
Proof.
  intros Hr Hle. unfold spec_slider_value, spec_clamped_x.
  apply Z.quot_le_mono; lia.
Qed.

Lemma spec_slider_value_low w tx :
  spec_min_x w < spec_max_x w -> tx <= spec_min_x w -> spec_slider_value w tx = 0.
Proof.
  intros Hr Hle. unfold spec_slider_value, spec_clamped_x.
  replace (Z.max _ _) with (spec_min_x w) by lia.
  rewrite Z.sub_diag. apply Z.quot_0_l. lia.
Qed.

Lemma spec_slider_value_high w tx :
  spec_min_x w < spec_max_x w -> spec_max_x w <= tx -> spec_slider_value w tx = 100.
Proof.
  intros Hr Hle. unfold spec_slider_value, spec_clamped_x.
  replace (Z.max _ _) with (spec_max_x w) by lia.
  rewrite Z.mul_comm. apply Z.quot_mul. lia.
Qed.

(** C4 (amended).  For a slider whose usable range is not empty
    (2 * (height / 2) < width) and whose upper usable bound
    x + width - height/2 does not exceed 65535, the default slider touch
    handler clamps the touch x into [x + height/2, x + width - height/2]
    and leaves slider_value = (clamped_x - min_x) * 100 / range_x, the
    division truncating; for x = 0, width = 100, height = 20 and touch
    x = 50 the bounds are 10 and 90, relative_x is 40 and the value is 50.
    (Slider-update callbacks are taken not to write slider values.) *)
Theorem default_slider_value_formula s p w tx ty data :
  heap (mem s) !! p = Some w -> widget_typed w ->
  2 * (height w ÷ 2) < width w -> slider_fits w ->
  (forall q, data = Some q -> is_Some (heap (mem s) !! q)) ->
  stored_slider_value s p tx ty data = Some (spec_slider_value w tx)
  /\ spec_min_x w <= spec_clamped_x w tx <= spec_max_x w
  /\ (x w = 0 -> width w = 100 -> height w = 20 -> tx = 50 ->
      spec_min_x w = 10 /\ spec_max_x w = 90
      /\ spec_clamped_x w tx - spec_min_x w = 40
      /\ stored_slider_value s p tx ty data = Some 50).
Proof.
  intros Hp Hw Hrange Hfits Hdata.
  destruct (default_slider_stores s p w tx ty data Hp Hw Hrange Hfits Hdata)
    as (s' & Hrun & Hval).
  assert (stored_slider_value s p tx ty data = Some (spec_slider_value w tx)) as E
    by (unfold stored_slider_value; by rewrite Hrun).
  split; [done|]. split.
  - unfold spec_clamped_x, spec_min_x, spec_max_x. lia.
  - intros Hx Hwd Hh ->. rewrite E.
    unfold spec_slider_value, spec_clamped_x, spec_min_x, spec_max_x.
    rewrite Hx, Hwd, Hh. by vm_compute.
Qed.

(** C5 (amended).  For every slider with width > height whose upper usable
    bound x + width - height/2 does not exceed 65535, the value the default
    slider touch handler leaves is defined for every touch x, is monotonic
    non-decreasing in the touch x, is 0 for every touch x at or below the
    lower usable bound and is 100 for every touch x at or above the upper
    usable bound. *)
Theorem slider_value_monotone_and_saturating s p w ty data :
  heap (mem s) !! p = Some w -> widget_typed w ->
  height w < width w -> slider_fits w ->
  (forall q, data = Some q -> is_Some (heap (mem s) !! q)) ->
  let value tx := stored_slider_value s p tx ty data in
  (forall tx, is_Some (value tx))
  /\ (forall tx1 tx2 v1 v2,
        tx1 <= tx2 -> value tx1 = Some v1 -> value tx2 = Some v2 -> v1 <= v2)
  /\ (forall tx, tx <= spec_min_x w -> value tx = Some 0)
  /\ (forall tx, spec_max_x w <= tx -> value tx = Some 100).
Proof.
  intros Hp Hw Hwh Hfits Hdata value.
  assert (0 <= height w) as Hh0 by (destruct Hw as (_ & _ & _ & []); done).
  pose proof (quot_bounds (height w) 2 Hh0 ltac:(lia)) as Hk.
  assert (2 * (height w ÷ 2) < width w) as Hrange.
  { pose proof (Z.quot_rem' (height w) 2) as E.
    pose proof (Z.rem_bound_pos (height w) 2 Hh0 ltac:(lia)). lia. }
  assert (spec_min_x w < spec_max_x w) as Hlt
    by (unfold spec_min_x, spec_max_x; lia).
  assert (forall tx, value tx = Some (spec_slider_value w tx)) as E.
  { intros tx. subst value. cbv beta. unfold stored_slider_value.
    destruct (default_slider_stores s p w tx ty data Hp Hw Hrange Hfits Hdata)
      as (s' & -> & Hval). done. }
  split; [|split; [|split]].
  - intros tx. by rewrite E.
  - intros tx1 tx2 v1 v2 Hle. rewrite !E. intros [= <-] [= <-].
    by apply spec_slider_value_mono.
  - intros tx Htx. rewrite E. f_equal. by apply spec_slider_value_low.
  - intros tx Htx. rewrite E. f_equal. by apply spec_slider_value_high.
Qed.
End slider.

(** ** Dispatch to the latched widget, and the registry *)

Section dispatch.
Context {user : UserCode}.

Lemma pressed_tick_latched tx ty pr s p w :
  active_widget (ctx (mem s)) = Some p -> touch_active (ctx (mem s)) <> 0 ->
  heap (mem s) !! p = Some w -> pr <> 0 ->
  lcd_ui_handle_touch tx ty pr s
  = match type w with
    | LCD_UI_WIDGET_SLIDER =>
      match on_touch w with
      | Some f => call_on_touch f p tx ty (user_data w) s
      | None => default_slider_touch_handler (Some p) tx ty (user_data w) s
      end
    | _ => Ok (tt, s)
    end.
Proof.
  intros Ha Ht Hp Hpr. unfold lcd_ui_handle_touch.
  destruct (Z.eqb_spec pr 0) as [|_]; [done|]. cbn [negb].
  unfold bind at 1, get_ctx at 1.
  destruct (Z.eqb_spec (touch_active (ctx (mem s))) 0) as [|_]; [done|].
  unfold bind at 1, ret at 1, send_to_active_widget.
  unfold bind at 1, get_ctx at 1. rewrite Ha.
  unfold bind at 1, load at 1. rewrite Hp.
  by destruct (type w), (on_touch w).
Qed.

Lemma release_tick_button tx ty s p w f :
  active_widget (ctx (mem s)) = Some p -> heap (mem s) !! p = Some w ->
  type w = LCD_UI_WIDGET_BUTTON -> on_touch w = Some f ->
  lcd_ui_handle_touch tx ty 0 s = Ok (tt, released_after f p tx ty (user_data w) s).
Proof.
  intros Ha Hp Hty Hf. unfold lcd_ui_handle_touch. cbn [Z.eqb negb].
  unfold trigger_button_on_release.
  unfold bind at 1. unfold bind at 1, get_ctx at 1. rewrite Ha.
  unfold bind at 1, load at 1. rewrite Hp, Hty, Hf. reflexivity.
Qed.

Lemma pressed_ticks_on_button ticks : forall s p w,
  active_widget (ctx (mem s)) = Some p -> touch_active (ctx (mem s)) <> 0 ->
  heap (mem s) !! p = Some w -> type w = LCD_UI_WIDGET_BUTTON ->
  Forall (fun t => tick_pressed t <> 0) ticks ->
  forall rest, run_touches (ticks ++ rest) s = run_touches rest s.
Proof.
  induction ticks as [|t ticks IH]; intros s p w Ha Ht Hp Hty Hall rest; [done|].
  apply Forall_cons in Hall as [Hpr Hall].
  cbn [app run_touches]. unfold bind at 1.
  rewrite (pressed_tick_latched _ _ _ s p w Ha Ht Hp Hpr), Hty.
  by eapply IH.
Qed.

(** C9.  With a widget latched: a pressed tick over a latched slider is
    exactly one call of its interaction handler on the tick's (x, y), the
    custom [on_touch] callback if set and the default slider handler
    otherwise, wherever (x, y) lies; a pressed tick over a latched widget
    of any other type calls nothing and changes nothing; and for a latched
    button with a touch callback, any run of pressed ticks followed by the
    release tick adds exactly one call to the log, the callback on the
    release coordinates, and clears the session. *)
Theorem dispatch_to_latched_widget tx ty s p w :
  active_widget (ctx (mem s)) = Some p -> touch_active (ctx (mem s)) <> 0 ->
  heap (mem s) !! p = Some w ->
  (forall pr, pr <> 0 ->
     lcd_ui_handle_touch tx ty pr s
     = match type w with
       | LCD_UI_WIDGET_SLIDER =>
         match on_touch w with
         | Some f => call_on_touch f p tx ty (user_data w) s
         | None => default_slider_touch_handler (Some p) tx ty (user_data w) s
         end
       | _ => Ok (tt, s)
       end)
  /\ (forall f ticks,
        type w = LCD_UI_WIDGET_BUTTON -> on_touch w = Some f ->
        Forall (fun t => tick_pressed t <> 0) ticks ->
        run_touches (ticks ++ [mk_tick tx ty 0]) s
        = Ok (tt, released_after f p tx ty (user_data w) s)).
Proof.
  intros Ha Ht Hp. split.
  - intros pr Hpr. by apply pressed_tick_latched.
  - intros f ticks Hty Hf Hall.
    rewrite (pressed_ticks_on_button ticks s p w Ha Ht Hp Hty Hall).
    cbn [run_touches tick_x tick_y tick_pressed]. unfold bind at 1.
    by rewrite (release_tick_button tx ty s p w f Ha Hp Hty Hf).
Qed.

Lemma add_widget_full s widget :
  widget_count (ctx (mem s)) = widget_capacity (ctx (mem s)) ->
  lcd_ui_add_widget widget s = Ok (tt, s).
Proof.
  intros H. destruct widget as [p|]; [|done]. unfold lcd_ui_add_widget.
  unfold bind, get_ctx. rewrite H.
  by destruct (Z.geb_spec (widget_capacity (ctx (mem s))) (widget_capacity (ctx (mem s)))); [|lia].
Qed.

Lemma add_widget_appends s p w :
  heap (mem s) !! p = Some w -> text_align w <= LCD_UI_ALIGN_RIGHT ->
  widget_count (ctx (mem s)) < widget_capacity (ctx (mem s)) ->
  is_Some (widgets (ctx (mem s)) !! Z.to_nat (widget_count (ctx (mem s)))) ->
  lcd_ui_add_widget (Some p) s = Ok (tt, appended p s).
Proof.
  intros Hp Hal Hlt [slot Hslot]. unfold lcd_ui_add_widget.
  unfold bind at 1, get_ctx at 1.
  destruct (Z.geb_spec (widget_count (ctx (mem s))) (widget_capacity (ctx (mem s)))); [lia|].
  unfold bind at 1, write_slot. unfold bind at 1, get_ctx at 1. rewrite Hslot.
  unfold modify_ctx at 1. unfold bind at 1, modify_ctx at 1.
  unfold bind at 1, load at 1. cbn [mem heap]. rewrite Hp.
  by destruct (Z.gtb_spec (text_align w) LCD_UI_ALIGN_RIGHT); [lia|].
Qed.

(** Insertions below the capacity fill consecutive slots. *)
Lemma add_widgets_fill ps : forall s,
  (forall p, p ∈ ps -> exists w, heap (mem s) !! p = Some w
                                /\ text_align w <= LCD_UI_ALIGN_RIGHT) ->
  0 <= widget_count (ctx (mem s)) ->
  widget_count (ctx (mem s)) + Z.of_nat (length ps) <= widget_capacity (ctx (mem s)) ->
  widget_capacity (ctx (mem s)) <= 255 ->
  widget_capacity (ctx (mem s)) <= Z.of_nat (length (widgets (ctx (mem s)))) ->
  exists s',
    add_widgets (Some <$> ps) s = Ok (tt, s')
    /\ heap (mem s') = heap (mem s)
    /\ widget_capacity (ctx (mem s')) = widget_capacity (ctx (mem s))
    /\ widget_count (ctx (mem s')) = widget_count (ctx (mem s)) + Z.of_nat (length ps)
    /\ widgets (ctx (mem s'))
       = take (Z.to_nat (widget_count (ctx (mem s)))) (widgets (ctx (mem s)))
         ++ (Some <$> ps)
         ++ drop (Z.to_nat (widget_count (ctx (mem s))) + length ps)
              (widgets (ctx (mem s))).
Proof.
  induction ps as [|p ps IH]; intros s Hheap H0 Hroom Hcap Hbuf.
  - exists s. cbn. rewrite Nat.add_0_r, Z.add_0_r, take_drop. done.
  - cbn [length] in Hroom. cbn [fmap list_fmap add_widgets].
    destruct (Hheap p) as (w & Hp & Hal); [by left|].
    assert (is_Some (widgets (ctx (mem s)) !! Z.to_nat (widget_count (ctx (mem s)))))
      as Hslot by (apply lookup_lt_is_Some; lia).
    rewrite (bind_ok _ _ s tt _ (add_widget_appends s p w Hp Hal ltac:(lia) Hslot)).
    destruct (IH (appended p s)) as (s' & Hrun & Hh & Hc & Hn & Hw); cbn.
    + intros q Hq. apply Hheap. by right.
    + rewrite u8_id; unfold is_u8; lia.
    + rewrite u8_id; unfold is_u8; lia.
    + done.
    + rewrite length_insert. done.
    + exists s'. split; [done|]. cbn in Hh, Hc, Hn, Hw.
      rewrite u8_id in Hn, Hw by (unfold is_u8; lia).
      split; [done|]. split; [done|]. split; [cbn [length]; lia|].
      rewrite Hw. cbn [length].
      set (n := Z.to_nat (widget_count (ctx (mem s)))).
      replace (Z.to_nat (widget_count (ctx (mem s)) + 1)) with (S n) by lia.
      rewrite (take_S_r _ n (Some p)) by (apply list_lookup_insert_eq; lia).
      rewrite take_insert_ge by lia.
      rewrite drop_insert_lt by lia.
      rewrite <- app_assoc. cbn [app].
      by replace (n + S (length ps))%nat with (S n + length ps)%nat by lia.
Qed.

(** C6.  [lcd_ui_add_widget] with [widget_count] equal to
    [widget_capacity] returns without changing anything: count, slots,
    widgets and log are as before.  In particular, after five widgets have
    been added to a registry of capacity 5, a sixth add leaves the count
    at 5 and the slots holding the first five. *)
Theorem add_widget_at_capacity_is_noop :
  (forall s widget,
      widget_count (ctx (mem s)) = widget_capacity (ctx (mem s)) ->
      lcd_ui_add_widget widget s = Ok (tt, s))
  /\ (forall d buffer ps p6 s,
        length buffer = 5%nat -> length ps = 5%nat ->
        (forall p, p ∈ ps -> exists w, heap (mem s) !! p = Some w
                                      /\ text_align w <= LCD_UI_ALIGN_RIGHT) ->
        exists s',
          (lcd_ui_init (Some d) (Some buffer) 5 ;;
           add_widgets (Some <$> ps) ;;
           lcd_ui_add_widget p6) s
          = Ok (tt, s')
          /\ widget_count (ctx (mem s')) = 5
          /\ widgets (ctx (mem s')) = Some <$> ps).
Proof.
  split; [apply add_widget_full|].
  intros d buffer ps p6 s Hb Hps Hheap.
  unfold bind at 1, lcd_ui_init, modify_ctx.
  set (s0 := mk_world _ _).
  destruct (add_widgets_fill ps s0) as (s1 & Hrun & _ & Hc & Hn & Hw);
    subst s0; cbn; try lia; [done|].
  cbn in Hc, Hn, Hw. rewrite (bind_ok _ _ _ _ _ Hrun).
  exists s1. split; [apply add_widget_full; lia|]. split; [lia|].
  rewrite Hw, Hps, drop_ge by lia. apply app_nil_r.
Qed.
End dispatch.

(** ** The scenarios *)

Lemma demo_user_keeps_session : UserCodeKeepsSession demo_user.
Proof. split; reflexivity. Qed.

Lemma demo_user_keeps_slider_values : UserCodeKeepsSliderValues demo_user.
Proof.
  split. intros f p v m q w Hq. cbn. rewrite lookup_alter.
  case_decide as E; [subst q|]; rewrite Hq; cbn; eauto.
Qed.

Lemma overlap_booted_registered :
  registered (mem overlap_booted) [4%positive; 1%positive].
Proof.
  split; [reflexivity|]. split; [by vm_compute|]. split.
  - intros [|[|i]] p; cbn; intros [= <-]; reflexivity.
  - intros p [->|[->|[]%elem_of_nil]%elem_of_cons]%elem_of_cons;
      eexists; (split; [reflexivity|]); by vm_compute.
Qed.

(** Counterexample to C1 as stated: a press that lands on no widget leaves
    [touch_active] true and [active_widget] none. *)
Lemma session_iff_fails_after_press_on_empty_space :
  exists s,
    (demo_boot ;; run_touches (user := demo_user) [mk_tick 300 300 1]) demo_start
    = Ok (tt, s)
    /\ ~ session_iff (mem s).
Proof.
  eexists. split; [vm_compute; reflexivity|].
  unfold session_iff. cbn. intros [_ H]. by apply H.
Qed.

Lemma session_active_only_while_touching_witness :
  session_only_if
    (mem (state_after
            (lcd_ui_init (Some demo_driver) (Some (replicate 5 None)) 5 ;;
             add_widgets [Some 1%positive; Some 2%positive; Some 3%positive] ;;
             run_touches (user := demo_user)
               [mk_tick 60 60 1; mk_tick 61 60 1; mk_tick 61 60 0;
                mk_tick 300 300 1; mk_tick 50 210 1; mk_tick 50 210 0])
            demo_start)).
Proof.
  apply (session_active_only_while_touching (keeps := demo_user_keeps_session)
           demo_driver (replicate 5 None) 5
           [Some 1%positive; Some 2%positive; Some 3%positive]
           [mk_tick 60 60 1; mk_tick 61 60 1; mk_tick 61 60 0;
            mk_tick 300 300 1; mk_tick 50 210 1; mk_tick 50 210 0]
           demo_start).
  vm_compute. reflexivity.
Defined.

(** The slider is latched at (50, 210); the finger then crosses button A. *)
Lemma drag_lock_witness :
  active_widget
    (ctx (mem (state_after
                 (run_touches (user := demo_user)
                    [mk_tick 60 60 1; mk_tick 90 150 1; mk_tick 50 210 1])
                 (state_after (lcd_ui_handle_touch (user := demo_user) 50 210 1)
                    demo_booted))))
  = Some 2%positive.
Proof.
  apply (drag_lock (keeps := demo_user_keeps_session) (mk_tick 50 210 1)
           [mk_tick 60 60 1; mk_tick 90 150 1; mk_tick 50 210 1] demo_booted
           (state_after (lcd_ui_handle_touch (user := demo_user) 50 210 1)
              demo_booted)).
  - vm_compute. discriminate.
  - vm_compute. reflexivity.
  - vm_compute. reflexivity.
  - repeat constructor; vm_compute; discriminate.
  - vm_compute. reflexivity.
Defined.

(** Counterexample to C3 as stated: the touch point lies inside the
    rectangle of the only registered button, hence inside its enlarged
    rectangle, and the press selects nothing. *)
Lemma edge_button_is_not_hit :
  first_hit (heap (mem (edge_start edge_button))) spec_expanded_box
    [1%positive] 65530 15 = Some 1%positive
  /\ exists s,
       (edge_boot ;; lcd_ui_handle_touch (user := demo_user) 65530 15 1)
         (edge_start edge_button) = Ok (tt, s)
       /\ active_widget (ctx (mem s)) = None.
Proof.
  split; [reflexivity|]. eexists. split; [vm_compute; reflexivity|reflexivity].
Qed.

(** Scenario 4: B and A overlap, B is registered first, the press at
    (60, 60) lies in both boxes. *)
Lemma press_selects_first_hit_witness :
  (exists s1,
      find_widget_under_touch 60 60 overlap_booted = Ok (tt, s1)
      /\ active_widget (ctx (mem s1)) = Some 4%positive)
  /\ box_contains (wrapped_expanded_box button_a) 60 60 = true.
Proof.
  split; [|reflexivity].
  exact (proj1 (press_selects_first_hit (keeps := demo_user_keeps_session)
                  60 60 1 overlap_booted [4%positive; 1%positive]
                  ltac:(discriminate) eq_refl overlap_booted_registered)).
Defined.

(** Counterexample to C4 as stated: for this slider the formula gives 64 at
    touch x = 65500 and the handler stores 100. *)
Lemma edge_slider_value_differs_from_formula :
  spec_slider_value edge_slider 65500 = 64
  /\ stored_slider_value (user := demo_user)
       (state_after edge_boot (edge_start edge_slider)) 1%positive 65500 0 None
     = Some 100.
Proof. split; reflexivity. Qed.

(** Scenario 3, on the slider of the demo registry. *)
Lemma default_slider_value_formula_witness :
  stored_slider_value (user := demo_user) demo_booted 2%positive 50 210
    (Some 3%positive) = Some 50.
Proof.
  destruct (default_slider_value_formula (keeps := demo_user_keeps_slider_values)
              demo_booted 2%positive slider_s 50 210 (Some 3%positive))
    as (_ & _ & H).
  - reflexivity.
  - by vm_compute.
  - by vm_compute.
  - by vm_compute.
  - intros q [= <-]. eexists. vm_compute. reflexivity.
  - exact (proj2 (proj2 (proj2 (H eq_refl eq_refl eq_refl eq_refl)))).
Defined.

(** Counterexample to C5 as stated: width 100 exceeds height 1, and a touch
    at the lower usable bound stores 100. *)
Lemma edge_slider_not_zero_at_lower_bound :
  height edge_slider < width edge_slider
  /\ spec_min_x edge_slider = 65436
  /\ stored_slider_value (user := demo_user)
       (state_after edge_boot (edge_start edge_slider)) 1%positive 65436 0 None
     = Some 100.
Proof. repeat split. Qed.

Lemma slider_value_monotone_and_saturating_witness :
  stored_slider_value (user := demo_user) demo_booted 2%positive 5 210
    (Some 3%positive) = Some 0
  /\ stored_slider_value (user := demo_user) demo_booted 2%positive 95 210
       (Some 3%positive) = Some 100.
Proof.
  destruct (slider_value_monotone_and_saturating
              (keeps := demo_user_keeps_slider_values)
              demo_booted 2%positive slider_s 210 (Some 3%positive))
    as (_ & _ & Hlow & Hhigh).
  - reflexivity.
  - by vm_compute.
  - by vm_compute.
  - by vm_compute.
  - intros q [= <-]. eexists. vm_compute. reflexivity.
  - split; [apply Hlow|apply Hhigh]; by vm_compute.
Defined.

(** Scenario 1: five slots, six adds. *)
Lemma add_widget_at_capacity_is_noop_witness :
  exists s',
    (lcd_ui_init (Some demo_driver) (Some (replicate 5 None)) 5 ;;
     add_widgets (Some <$> [1; 2; 3; 4; 1]%positive) ;;
     lcd_ui_add_widget (Some 2%positive)) demo_start = Ok (tt, s')
    /\ widget_count (ctx (mem s')) = 5
    /\ widgets (ctx (mem s')) = Some <$> [1; 2; 3; 4; 1]%positive.
Proof.
  apply (proj2 add_widget_at_capacity_is_noop demo_driver (replicate 5 None)
           [1; 2; 3; 4; 1]%positive (Some 2%positive) demo_start eq_refl eq_refl).
  intros p Hp. apply list_elem_of_In in Hp. cbn in Hp.
  destruct Hp as [<-|[<-|[<-|[<-|[<-|[]]]]]];
    eexists; (split; [reflexivity|]); by vm_compute.
Defined.

(** Scenario 2: button A is latched by a press at (50, 50); the finger
    moves by a pixel and is lifted at (50, 50). *)
Lemma dispatch_to_latched_widget_witness :
  let s := state_after (lcd_ui_handle_touch (user := demo_user) 50 50 1) demo_booted in
  run_touches (user := demo_user) ([mk_tick 51 50 1] ++ [mk_tick 50 50 0]) s
  = Ok (tt, released_after (user := demo_user) 7 1 50 50 None s)
  /\ log (released_after (user := demo_user) 7 1 50 50 None s)
     = [CallOnTouch 7 1 50 50 None].
Proof.
  intros s. split; [|reflexivity].
  apply (proj2 (dispatch_to_latched_widget (user := demo_user) 50 50 s
                  1%positive button_a eq_refl ltac:(by vm_compute) eq_refl)
           7%positive [mk_tick 51 50 1] eq_refl eq_refl).
  repeat constructor; by vm_compute.
Defined.

(** C7.  The code at a failing input: a context initialised over a two-slot
    buffer whose second slot still holds the address of [label_ok], then an
    add of [label_bad], whose alignment is 7.  The inserted widget keeps
    alignment 7 and the widget behind the next slot has its alignment reset.
    With the next slot [NULL], as [lcd_ui_reset_screen] leaves every slot,
    the repair dereferences [NULL], and with no next slot it reads past the
    buffer. *)
Theorem add_widget_alignment_repair_misses_inserted :
  (exists s',
      (lcd_ui_init (Some demo_driver) (Some [None; Some 2%positive]) 2 ;;
       lcd_ui_add_widget (Some 1%positive)) labels_start = Ok (tt, s')
      /\ widgets (ctx (mem s')) = [Some 1%positive; Some 2%positive]
      /\ text_align <$> heap (mem s') !! 1%positive = Some 7
      /\ text_align <$> heap (mem labels_start) !! 2%positive = Some LCD_UI_ALIGN_CENTER
      /\ text_align <$> heap (mem s') !! 2%positive = Some LCD_UI_ALIGN_LEFT)
  /\ (lcd_ui_init (Some demo_driver) (Some [None; Some 2%positive]) 2 ;;
      lcd_ui_reset_screen ;;
      lcd_ui_add_widget (Some 1%positive)) labels_start = Fault NullDeref
  /\ (lcd_ui_init (Some demo_driver) (Some [None]) 1 ;;
      lcd_ui_add_widget (Some 1%positive)) labels_start = Fault OutOfBounds.
Proof.
  split; [|split; reflexivity].
  eexists. split; [vm_compute; reflexivity|]. repeat split.
Qed.

(** * Further properties *)

(** ** Colours *)

Lemma lor_disjoint_add hi lo k :
  0 <= k -> 0 <= lo < 2 ^ k -> Z.lor (hi * 2 ^ k) lo = hi * 2 ^ k + lo.
Proof.
  intros Hk Hlo. rewrite <- Z.add_lor_land.
  assert (Z.land (hi * 2 ^ k) lo = 0) as ->; [|lia].
  apply Z.bits_inj'. intros n Hn. rewrite Z.land_spec, Z.bits_0.
  destruct (Z.lt_ge_cases n k) as [Hlt|Hge].
  - by rewrite Z.mul_pow2_bits_low.
  - rewrite <- (Z.mod_small lo (2 ^ k)) by lia.
    rewrite Z.mod_pow2_bits_high by lia. apply andb_false_r.
Qed.

Lemma make_argb_colour_value a r g b :
  is_u8 a -> is_u8 r -> is_u8 g -> is_u8 b ->
  make_argb_colour a r g b = a * 16777216 + r * 65536 + g * 256 + b.
Proof.
  unfold is_u8. intros Ha Hr Hg Hb.
  unfold make_argb_colour, u32. cbv zeta. rewrite Z.lor_0_l.
  rewrite !Z.shiftl_mul_pow2 by lia.
  rewrite !Z.mod_small by lia.
  rewrite (lor_disjoint_add a (r * 2 ^ 16) 24) by lia.
  replace (a * 2 ^ 24 + r * 2 ^ 16) with ((a * 2 ^ 8 + r) * 2 ^ 16) by lia.
  rewrite (lor_disjoint_add _ (g * 2 ^ 8) 16) by lia.
  replace ((a * 2 ^ 8 + r) * 2 ^ 16 + g * 2 ^ 8)
    with ((a * 2 ^ 16 + r * 2 ^ 8 + g) * 2 ^ 8) by lia.
  rewrite (lor_disjoint_add _ b 8) by lia. lia.
Qed.

Lemma decompose_argb_colour_value c :
  decompose_argb_colour c
  = mk_argb_colour ((c / 16777216) mod 256) ((c / 65536) mod 256)
      ((c / 256) mod 256) (c mod 256).
Proof.
  unfold decompose_argb_colour, u8.
  change 255 with (Z.ones 8). rewrite !Z.land_ones by lia.
  rewrite !Z.shiftr_div_pow2 by lia.
  change (2 ^ 8) with 256. change (2 ^ 16) with 65536. change (2 ^ 24) with 16777216.
  by rewrite !Z.mod_mod by lia.
Qed.

(** X1.  Splitting a colour built by [make_argb_colour] from four bytes gives
    back the four bytes, and the colour fits in 32 bits. *)
Theorem argb_decompose_make a r g b :
  is_u8 a -> is_u8 r -> is_u8 g -> is_u8 b ->
  decompose_argb_colour (make_argb_colour a r g b) = mk_argb_colour a r g b
  /\ is_u32 (make_argb_colour a r g b).
Proof.
  intros Ha Hr Hg Hb. rewrite decompose_argb_colour_value.
  rewrite (make_argb_colour_value a r g b) by done.
  unfold is_u8, is_u32 in *. split; [|lia].
  f_equal; Z.div_mod_to_equations; lia.
Qed.

(** X2.  Rebuilding a 32-bit colour from the channels
    [decompose_argb_colour] extracts gives back the colour. *)
Theorem argb_make_decompose c :
  is_u32 c ->
  let d := decompose_argb_colour c in
  make_argb_colour (alpha_value d) (red_value d) (green_value d) (blue_value d) = c.
Proof.
  intros Hc. cbv zeta. rewrite decompose_argb_colour_value. cbn.
  unfold is_u32 in Hc.
  rewrite make_argb_colour_value by (unfold is_u8; apply Z.mod_pos_bound; lia).
  Z.div_mod_to_equations. lia.
Qed.

(** X3.  For every 8-bit amount, [lighten_colour] scales by
    100 + min(amount, 100) percent and [darken_colour] by
    100 - min(amount, 100) percent: amounts above 100 saturate, and the
    percentage handed on never leaves 0..200, so its narrowing to 8 bits
    never wraps. *)
Theorem lighten_darken_saturate {scaling : ColourScaling} argb_value amount_value :
  is_u8 amount_value ->
  lighten_colour argb_value amount_value
  = scale_colour_by_percentage argb_value (100 + Z.min amount_value 100)
  /\ darken_colour argb_value amount_value
     = scale_colour_by_percentage argb_value (100 - Z.min amount_value 100).
Proof.
  unfold is_u8. intros Ha. unfold lighten_colour, darken_colour. cbv zeta. split.
  - rewrite u32_id, u16_id by (unfold is_u32, is_u16; lia).
    destruct (Z.gtb_spec (100 + amount_value) 200).
    + rewrite Z.min_r by lia. reflexivity.
    + rewrite Z.min_l by lia. rewrite u8_id by (unfold is_u8; lia). reflexivity.
  - destruct (Z.gtb_spec amount_value 100).
    + rewrite Z.min_r by lia. reflexivity.
    + rewrite Z.min_l by lia.
      rewrite u32_id, u8_id by (unfold is_u32, is_u8; lia). reflexivity.
Qed.

(** ** The registry *)

Lemma clear_loop_spec n : forall i s,
  0 <= i -> i + Z.of_nat n <= 255 ->
  i + Z.of_nat n <= Z.of_nat (length (widgets (ctx (mem s)))) ->
  clear_loop n i s
  = Ok (tt, mk_world
              (mk_memory
                 (set_widgets
                    (take (Z.to_nat i) (widgets (ctx (mem s)))
                     ++ replicate n None
                     ++ drop (Z.to_nat i + n) (widgets (ctx (mem s))))
                    (ctx (mem s)))
                 (heap (mem s)))
              (log s)).
Proof.
  induction n as [|n IH]; intros i s Hi Hn Hlen; cbn [clear_loop].
  - cbn [replicate app]. rewrite Nat.add_0_r, take_drop.
    by destruct s as [[[] ?] ?].
  - assert (is_Some (widgets (ctx (mem s)) !! Z.to_nat i)) as [slot Hslot]
      by (apply lookup_lt_is_Some; lia).
    unfold bind at 1, write_slot. unfold bind at 1, get_ctx at 1. rewrite Hslot.
    unfold modify_ctx at 1. rewrite u8_id by (unfold is_u8; lia).
    rewrite IH; cbn; rewrite ?length_insert; try lia.
    do 4 f_equal.
    replace (Z.to_nat (i + 1)) with (S (Z.to_nat i)) by lia.
    rewrite (take_S_r _ _ None) by (apply list_lookup_insert_eq; by eapply lookup_lt_Some).
    rewrite take_insert_ge by lia. rewrite drop_insert_lt by lia.
    rewrite <- app_assoc. cbn [app replicate].
    by replace (Z.to_nat i + S n)%nat with (S (Z.to_nat i) + n)%nat by lia.
Qed.

Lemma clear_loop_out_of_bounds n : forall i s,
  0 <= i -> (Z.to_nat i <= length (widgets (ctx (mem s))))%nat ->
  (length (widgets (ctx (mem s))) < Z.to_nat i + n)%nat -> i + Z.of_nat n <= 256 ->
  clear_loop n i s = Fault OutOfBounds.
Proof.
  induction n as [|n IH]; intros i s Hi Hle Hlen Hn; [lia|].
  cbn [clear_loop]. unfold bind at 1, write_slot. unfold bind at 1, get_ctx at 1.
  destruct (widgets (ctx (mem s)) !! Z.to_nat i) as [slot|] eqn:Hslot; [|done].
  apply lookup_lt_Some in Hslot.
  unfold modify_ctx at 1. rewrite u8_id by (unfold is_u8; lia).
  apply IH; cbn; rewrite ?length_insert; lia.
Qed.

Lemma clear_loop_frame n : forall i s s',
  clear_loop n i s = Ok (tt, s') ->
  heap (mem s') = heap (mem s) /\ session (mem s') = session (mem s)
  /\ widget_count (ctx (mem s')) = widget_count (ctx (mem s)).
Proof.
  induction n as [|n IH]; intros i s s'; cbn [clear_loop].
  - by intros [= <-].
  - intros H. apply bind_inv in H as ([] & s1 & H1 & H).
    apply IH in H as (-> & -> & ->).
    unfold write_slot, bind, get_ctx in H1.
    destruct (_ !! _) in H1; [|done]. by injection H1 as <-.
Qed.

(** X4.  On a context whose buffer has at least [widget_capacity] slots,
    [lcd_ui_clear_widgets] sets the count to 0 and every slot below the
    capacity to [NULL], and leaves the slots beyond the capacity, the
    capacity, the widgets themselves and the call log as they were. *)
Theorem clear_widgets_empties_registry s :
  let c := ctx (mem s) in
  0 <= widget_capacity c <= 255 ->
  widget_capacity c <= Z.of_nat (length (widgets c)) ->
  exists s',
    lcd_ui_clear_widgets s = Ok (tt, s')
    /\ widget_count (ctx (mem s')) = 0
    /\ widgets (ctx (mem s'))
       = replicate (Z.to_nat (widget_capacity c)) None
         ++ drop (Z.to_nat (widget_capacity c)) (widgets c)
    /\ widget_capacity (ctx (mem s')) = widget_capacity c
    /\ heap (mem s') = heap (mem s)
    /\ log s' = log s.
Proof.
  intros c Hcap Hlen. subst c. unfold lcd_ui_clear_widgets.
  unfold bind at 1, modify_ctx at 1. unfold bind at 1, get_ctx at 1. cbn [mem ctx].
  rewrite clear_loop_spec; cbn; try lia.
  eexists. split; [reflexivity|]. cbn. by rewrite Nat.add_0_l.
Qed.

(** X5.  [lcd_ui_clear_widgets] writes [widget_capacity] slots whatever the
    size of the buffer: over a buffer shorter than the capacity it writes
    past the end. *)
Theorem clear_widgets_overruns_short_buffer s :
  let c := ctx (mem s) in
  Z.of_nat (length (widgets c)) < widget_capacity c <= 255 ->
  lcd_ui_clear_widgets s = Fault OutOfBounds.
Proof.
  intros c Hcap. subst c. unfold lcd_ui_clear_widgets.
  unfold bind at 1, modify_ctx at 1. unfold bind at 1, get_ctx at 1. cbn [mem ctx].
  apply clear_loop_out_of_bounds; cbn; lia.
Qed.

Section clearing.
Context {user : UserCode}.

(** X6.  [lcd_ui_clear_widgets] does not end a touch session: with a widget
    latched, the registry is empty afterwards but the widget is still
    latched, and the next pressed tick still goes to it (the handler of a
    slider, nothing for another type). *)
Theorem clear_widgets_keeps_touch_session s s' p w tx ty pr :
  lcd_ui_clear_widgets s = Ok (tt, s') ->
  active_widget (ctx (mem s)) = Some p -> touch_active (ctx (mem s)) <> 0 ->
  heap (mem s) !! p = Some w -> pr <> 0 ->
  widget_count (ctx (mem s')) = 0
  /\ active_widget (ctx (mem s')) = Some p
  /\ lcd_ui_handle_touch tx ty pr s'
     = match type w with
       | LCD_UI_WIDGET_SLIDER =>
         match on_touch w with
         | Some f => call_on_touch f p tx ty (user_data w) s'
         | None => default_slider_touch_handler (Some p) tx ty (user_data w) s'
         end
       | _ => Ok (tt, s')
       end.
Proof.
  intros Hclear Ha Ht Hp Hpr. unfold lcd_ui_clear_widgets in Hclear.
  apply bind_inv in Hclear as ([] & s1 & [= <-] & H).
  apply bind_inv in H as (c & s2 & [= <- <-] & H).
  apply clear_loop_frame in H as (Hh & Hs & Hc). cbn in Hh, Hs, Hc.
  injection Hs as Hs1 Hs2.
  split; [done|]. split; [congruence|].
  apply pressed_tick_latched; congruence.
Qed.
End clearing.

(** X7.  After [lcd_ui_init] over a buffer of at least [capacity] slots,
    adding up to [capacity] live widgets with in-range alignment (the same
    widget may be added more than once) leaves exactly them registered, in
    the order of the adds, in the first slots; the rest of the buffer, the
    session and the widgets are untouched. *)
Theorem init_then_add_registers d buffer capacity ps s :
  Z.of_nat (length ps) <= capacity <= 255 ->
  capacity <= Z.of_nat (length buffer) ->
  (forall p, p ∈ ps ->
     exists w, heap (mem s) !! p = Some w /\ widget_typed w
               /\ text_align w <= LCD_UI_ALIGN_RIGHT) ->
  exists s',
    (lcd_ui_init (Some d) (Some buffer) capacity ;; add_widgets (Some <$> ps)) s
    = Ok (tt, s')
    /\ registered (mem s') ps
    /\ widgets (ctx (mem s')) = (Some <$> ps) ++ drop (length ps) buffer
    /\ session (mem s') = (None, 0)
    /\ heap (mem s') = heap (mem s).
Proof.
  intros Hcap Hbuf Hheap.
  unfold bind at 1, lcd_ui_init, modify_ctx.
  set (s0 := mk_world _ _).
  destruct (add_widgets_fill ps s0) as (s1 & Hrun & Hh & Hc & Hn & Hw);
    subst s0; cbn; try lia.
  { intros p Hp. destruct (Hheap p Hp) as (w & ? & _ & ?). eauto. }
  cbn -[fmap] in Hh, Hc, Hn, Hw.
  change (Z.to_nat 0) with 0%nat in Hw. rewrite take_0 in Hw. cbn [app Nat.add] in Hw.
  exists s1. split; [done|].
  pose proof (keeps_session_add_widgets _ _ _ _ Hrun) as Hs. cbn in Hs.
  split; [|by rewrite Hw, Hh, Hs].
  split; [lia|]. split; [unfold is_u8; lia|]. split.
  - intros i p Hi. rewrite Hw. rewrite lookup_app_l.
    + by rewrite list_lookup_fmap, Hi.
    + rewrite length_fmap. by eapply lookup_lt_Some.
  - intros p Hp. destruct (Hheap p Hp) as (w & ? & ? & _). rewrite Hh. eauto.
Qed.

(** ** Rendering *)

Section rendering.
Context {font : FontMetrics} {scaling : ColourScaling}.

Lemma render_loop_spec ps : forall i s,
  (forall (k : nat) p, ps !! k = Some p ->
     widgets (ctx (mem s)) !! (Z.to_nat i + k)%nat = Some (Some p)) ->
  (forall p, p ∈ ps -> is_Some (heap (mem s) !! p)) ->
  0 <= i -> i + Z.of_nat (length ps) <= 255 ->
  render_loop (length ps) i s
  = Ok (concat ((fun p => draw_widget (ctx (mem s)) (heap (mem s) !! p)) <$> ps), s).
Proof.
  induction ps as [|p ps IH]; intros i s Hslots Hheap Hi Hn; [done|].
  cbn [length render_loop fmap list_fmap concat].
  destruct (Hheap p) as [w Hp]; [by left|].
  unfold bind at 1, get_ctx at 1.
  assert (read_slot i s = Ok (Some p, s)) as H1.
  { unfold read_slot, bind, get_ctx.
    specialize (Hslots 0%nat p eq_refl). rewrite Nat.add_0_r in Hslots.
    by rewrite Hslots. }
  rewrite (bind_ok _ _ _ _ _ H1).
  unfold bind at 1. unfold bind at 1, load at 1. rewrite Hp. unfold ret at 1.
  cbn [length] in Hn. rewrite u8_id by (unfold is_u8; lia).
  rewrite (bind_ok _ _ _ _ _ (IH (i + 1) s ltac:(intros k q Hk;
    replace (Z.to_nat (i + 1) + k)%nat with (Z.to_nat i + S k)%nat by lia;
    by apply Hslots) ltac:(intros; apply Hheap; by right) ltac:(lia) ltac:(lia))).
  reflexivity.
Qed.

(** X8.  With a driver set, [lcd_ui_render] makes the driver calls of
    [draw_widget] for each registered widget in registration order, and
    changes nothing in memory. *)
Theorem render_paints_in_registration_order s ps d :
  registered (mem s) ps -> driver (ctx (mem s)) = Some d ->
  lcd_ui_render s
  = Ok (concat ((fun p => draw_widget (ctx (mem s)) (heap (mem s) !! p)) <$> ps), s).
Proof.
  intros (Hcount & Hu8 & Hslots & Hheap) Hd. unfold is_u8 in Hu8.
  unfold lcd_ui_render, bind, get_ctx. rewrite Hd, Hcount, Nat2Z.id.
  apply render_loop_spec; [done| |lia|lia].
  intros p Hp. destruct (Hheap p Hp) as (w & -> & _). done.
Qed.

Lemma centred_offset a delta :
  -65536 < delta < 65536 ->
  u16 (a + u32 delta ÷ 2) = (a + delta / 2) mod 65536.
Proof.
  intros Hd. unfold u16, u32.
  rewrite Z.quot_div_nonneg by (try apply Z.mod_pos_bound; lia).
  Z.div_mod_to_equations. lia.
Qed.

(** X9.  A button with a centre-aligned label is drawn as its rectangle
    followed by the label, placed at x + floor((width - text_width) / 2) and
    y + floor((height - font_height) / 2) modulo 65536, whether or not the
    text is wider than the button.  When the text fits and the button's right
    edge does not exceed 65535, the text lies inside the button and the gaps
    left and right of it differ by at most one pixel. *)
Theorem button_label_is_centred c d w text :
  driver c = Some d -> type w = LCD_UI_WIDGET_BUTTON ->
  label_text w = Some text -> text_align w = LCD_UI_ALIGN_CENTER ->
  widget_typed w -> is_u16 get_font_width -> is_u16 get_font_height ->
  u16 (Z.of_nat (String.length text)) * get_font_width <= 2147483647 ->
  let text_width := u16 (u16 (Z.of_nat (String.length text)) * get_font_width) in
  let text_x := (x w + (width w - text_width) / 2) mod 65536 in
  let text_y := (y w + (height w - get_font_height) / 2) mod 65536 in
  draw_widget c (Some w)
  = [DrawRect (x w) (y w) (width w) (height w) (background_color w);
     DrawText text_x text_y text (text_color w) (background_color w) LCD_UI_ALIGN_LEFT]
  /\ (text_width <= width w -> x w + width w <= 65535 ->
      x w <= text_x /\ text_x + text_width <= x w + width w
      /\ 0 <= (x w + width w - (text_x + text_width)) - (text_x - x w) <= 1).
Proof.
  intros Hd Hty Hlabel Halign (Hx & Hy & Hw & Hh) Hfw Hfh Hint text_width text_x text_y.
  unfold is_u16 in *.
  assert (0 <= text_width < 65536) as Htw by (apply Z.mod_pos_bound; lia).
  split.
  - unfold draw_widget. rewrite Hd, Hty, Hlabel, Halign. cbn [Z.eqb LCD_UI_ALIGN_CENTER].
    cbv zeta. fold text_width.
    rewrite !centred_offset by lia. reflexivity.
  - intros Hfit Hedge. subst text_x.
    rewrite Z.mod_small by (Z.div_mod_to_equations; lia).
    Z.div_mod_to_equations; lia.
Qed.

(** X10.  A progress bar at 0..100 percent is drawn as its rectangle
    followed by a fill of width percent * width / 100, which never exceeds
    the bar, is 0 at 0 percent and the whole width at 100 percent. *)
Theorem progress_bar_fill_within_bar c d w :
  driver c = Some d -> type w = LCD_UI_WIDGET_PROGRESS_BAR ->
  widget_typed w -> 0 <= progress_percent w <= 100 ->
  let fill_width := progress_percent w * width w / 100 in
  draw_widget c (Some w)
  = [DrawRect (x w) (y w) (width w) (height w) (background_color w);
     DrawRect (x w) (y w) fill_width (height w) (text_color w)]
  /\ 0 <= fill_width <= width w
  /\ (progress_percent w = 0 -> fill_width = 0)
  /\ (progress_percent w = 100 -> fill_width = width w).
Proof.
  intros Hd Hty (Hx & Hy & Hw & Hh) Hp fill_width. unfold is_u16 in *.
  assert (0 <= fill_width <= width w) as Hfill
    by (subst fill_width; Z.div_mod_to_equations; nia).
  split; [|split; [done|split]].
  - unfold draw_widget. rewrite Hd, Hty. cbv zeta.
    rewrite u32_id by (unfold is_u32; nia).
    rewrite Z.quot_div_nonneg by nia. fold fill_width.
    rewrite u16_id by (unfold is_u16; lia). reflexivity.
  - intros E. subst fill_width. rewrite E. done.
  - intros E. subst fill_width. rewrite E. rewrite Z.mul_comm. by apply Z.div_mul.
Qed.

(** X11.  A slider at least as wide as high, with value 0..100 and its far
    edges within 65535, is drawn as its rectangle, a track of a third of its
    height lying inside it, and a square knob at
    x + value * (width - height) / 100, which lies inside the rectangle:
    flush left at value 0 and flush right at value 100. *)
Theorem slider_knob_within_widget c d w :
  driver c = Some d -> type w = LCD_UI_WIDGET_SLIDER ->
  widget_typed w -> height w <= width w ->
  x w + width w <= 65535 -> y w + height w <= 65535 ->
  0 <= slider_value w <= 100 ->
  let track_height := height w / 3 in
  let track_y := y w + (height w - track_height) / 2 in
  let knob_x := x w + slider_value w * (width w - height w) / 100 in
  draw_widget c (Some w)
  = [DrawRect (x w) (y w) (width w) (height w) (background_color w);
     DrawRect (x w) track_y (width w) track_height (text_color w);
     DrawRect knob_x (y w) (height w) (height w) (lighten_colour (text_color w) 40)]
  /\ x w <= knob_x /\ knob_x + height w <= x w + width w
  /\ y w <= track_y /\ track_y + track_height <= y w + height w
  /\ (slider_value w = 0 -> knob_x = x w)
  /\ (slider_value w = 100 -> knob_x + height w = x w + width w).
Proof.
  intros Hd Hty (Hx & Hy & Hw & Hh) Hhw Hxe Hye Hv track_height track_y knob_x.
  unfold is_u16 in *.
  assert (0 <= track_height <= height w) as Hth
    by (subst track_height; Z.div_mod_to_equations; lia).
  assert (y w <= track_y /\ track_y + track_height <= y w + height w) as Hty'
    by (subst track_y; Z.div_mod_to_equations; lia).
  assert (x w <= knob_x /\ knob_x + height w <= x w + width w) as Hk
    by (subst knob_x; Z.div_mod_to_equations; nia).
  split; [|repeat split; try lia].
  - unfold draw_widget. rewrite Hd, Hty. cbv zeta.
    rewrite (Z.quot_div_nonneg (height w) 3) by lia. fold track_height.
    rewrite (u16_id track_height) by (unfold is_u16; lia).
    rewrite (u32_id (height w - track_height)) by (unfold is_u32; lia).
    rewrite Z.quot_div_nonneg by lia. fold track_y.
    rewrite (u16_id track_y) by (unfold is_u16; lia).
    rewrite (u16_id (width w - height w)) by (unfold is_u16; lia).
    rewrite u32_id by (unfold is_u32; nia).
    rewrite Z.quot_div_nonneg by nia. fold knob_x.
    rewrite (u16_id knob_x) by (unfold is_u16; lia).
    destruct (Z.gtb_spec (knob_x + height w) (x w + width w)); [lia|]. reflexivity.
  - intros E. subst knob_x. rewrite E, Z.mul_0_l. change (0 / 100) with 0. lia.
  - intros E. subst knob_x. rewrite E.
    rewrite Z.mul_comm, Z.div_mul by lia. lia.
Qed.
End rendering.

(** ** More on the default slider handler *)

Section slider_more.
Context {user : UserCode} {keeps : UserCodeKeepsSliderValues user}.

Lemma spec_slider_value_range w tx :
  spec_min_x w < spec_max_x w -> 0 <= spec_slider_value w tx <= 100.
Proof.
  intros Hr. unfold spec_slider_value, spec_clamped_x.
  rewrite Z.quot_div_nonneg by lia. split.
  - apply Z.div_pos; lia.
  - apply Z.div_le_upper_bound; nia.
Qed.

Lemma redraw_keeps_memory q s :
  is_Some (heap (mem s) !! q) ->
  ok_with (lcd_ui_redraw_widget q) s (fun _ s' => mem s' = mem s).
Proof.
  intros [w Hq]. unfold lcd_ui_redraw_widget, ok_with, bind, get_ctx, load, emit.
  destruct (driver _); [|done]. by rewrite Hq.
Qed.

(** X12.  For a slider whose usable range is not empty and does not wrap,
    the default slider touch handler leaves [slider_value] within 0..100 for
    every touch x, and sets the [progress_percent] of a linked widget to
    100 minus that value. *)
Theorem default_slider_value_in_range s p w tx ty data :
  heap (mem s) !! p = Some w -> widget_typed w ->
  2 * (height w ÷ 2) < width w -> slider_fits w ->
  (forall q, data = Some q -> is_Some (heap (mem s) !! q)) ->
  exists s' v,
    default_slider_touch_handler (Some p) tx ty data s = Ok (tt, s')
    /\ slider_value_at s' p = Some v
    /\ 0 <= v <= 100
    /\ forall q, data = Some q ->
         progress_percent <$> heap (mem s') !! q = Some (100 - v).
Proof.
  intros Hp Hw Hrange Hfits Hdata.
  destruct (slider_arith w tx Hw Hrange Hfits) as [Hne Hval]. cbv zeta in Hne, Hval.
  assert (0 <= spec_slider_value w tx <= 100) as Hv.
  { apply spec_slider_value_range. destruct Hw as (? & ? & ? & ?).
    unfold spec_min_x, spec_max_x. lia. }
  set (v := spec_slider_value w tx) in *.
  enough (ok_with (default_slider_touch_handler (Some p) tx ty data) s
            (fun _ s' => slider_value_at s' p = Some v
                         /\ forall q, data = Some q ->
                              progress_percent <$> heap (mem s') !! q = Some (100 - v))) as H.
  { apply ok_with_elim in H as ([] & s' & H1 & H2 & H3). exists s', v. eauto. }
  unfold default_slider_touch_handler.
  apply ok_with_bind. unfold ok_with at 1, load. rewrite Hp. cbv zeta.
  match goal with |- context [?a =? 0] => destruct (Z.eqb_spec a 0) as [E|_] end; [done|].
  rewrite Hval.
  apply ok_with_bind. unfold ok_with at 1, store.
  set (s1 := mk_world _ _).
  assert (holds p v data s1) as H1.
  { split.
    - unfold slider_value_at. subst s1. cbn. by rewrite lookup_insert_eq.
    - intros q Hq. subst s1. cbn. destruct (decide (p = q)) as [->|Hne'].
      + by rewrite lookup_insert_eq.
      + rewrite lookup_insert_ne by done. by apply Hdata. }
  apply ok_with_bind.
  eapply ok_with_mono; [|apply (holds_notify _ _ _ _ _ H1)]. cbn beta.
  intros [] s2 [Hv2 Hlive2]. unfold slider_value_at in Hv2.
  destruct (heap (mem s2) !! p) as [w2|] eqn:Hp2; [|done]. injection Hv2 as Hv2.
  apply ok_with_bind.
  destruct data as [q|].
  - destruct (Hlive2 q eq_refl) as [lp Hq].
    apply ok_with_bind. unfold ok_with at 1, load. rewrite Hp2.
    apply ok_with_bind. unfold ok_with at 1. rewrite Hq.
    apply ok_with_bind. unfold ok_with at 1, store.
    set (s3 := mk_world _ _).
    assert (slider_value_at s3 p = Some v
            /\ progress_percent <$> heap (mem s3) !! q = Some (100 - v)) as [H3 H4].
    { subst s3. unfold slider_value_at. cbn. rewrite lookup_insert_eq. cbn.
      rewrite Hv2, u32_id, u8_id by (unfold is_u32, is_u8; lia). split; [|done].
      destruct (decide (q = p)) as [->|Hne'].
      - rewrite lookup_insert_eq. cbn. congruence.
      - rewrite lookup_insert_ne by done. rewrite Hp2. cbn. congruence. }
    eapply ok_with_mono; [|apply (redraw_keeps_memory q s3)].
    + cbn beta. intros [] s4 E4.
      eapply ok_with_mono; [|apply (redraw_keeps_memory p s4)].
      * cbn beta. intros [] s5 E5. unfold slider_value_at. rewrite E5, E4.
        split; [done|]. by intros ? [= <-].
      * rewrite E4. unfold slider_value_at in H3. by destruct (heap (mem s3) !! p).
    + by destruct (heap (mem s3) !! q).
  - unfold ok_with at 1, ret.
    eapply ok_with_mono; [|apply (redraw_keeps_memory p s2)].
    + cbn beta. intros [] s5 E5. unfold slider_value_at. rewrite E5, Hp2. cbn.
      split; [congruence|done].
    + by rewrite Hp2.
Qed.

(** X13.  For a slider with width = 2 * (height / 2), such as a square one
    of even height, [range_x] is 0 and the default slider touch handler
    divides by zero on every touch; so does every pressed tick of
    [lcd_ui_handle_touch] while such a slider without a custom callback is
    latched. *)
Theorem default_slider_divides_by_zero s p w tx ty data :
  heap (mem s) !! p = Some w -> is_u16 (height w) ->
  width w = 2 * (height w ÷ 2) ->
  default_slider_touch_handler (Some p) tx ty data s = Fault DivByZero
  /\ (forall pr,
        pr <> 0 -> active_widget (ctx (mem s)) = Some p ->
        touch_active (ctx (mem s)) <> 0 ->
        type w = LCD_UI_WIDGET_SLIDER -> on_touch w = None ->
        lcd_ui_handle_touch tx ty pr s = Fault DivByZero).
Proof.
  intros Hp Hh Hwd.
  assert (default_slider_touch_handler (Some p) tx ty data s = Fault DivByZero) as E.
  { unfold default_slider_touch_handler, bind, load. rewrite Hp. cbv zeta.
    unfold is_u16 in Hh. pose proof (quot_bounds (height w) 2 ltac:(lia) ltac:(lia)).
    rewrite (u16_id (height w ÷ 2)) by (unfold is_u16; lia).
    replace (x w + width w - height w ÷ 2) with (x w + height w ÷ 2) by lia.
    rewrite Z.sub_diag. reflexivity. }
  split; [done|].
  intros pr Hpr Ha Ht Hty Hcb.
  rewrite (pressed_tick_latched tx ty pr s p w Ha Ht Hp Hpr), Hty, Hcb.
  clear E. unfold default_slider_touch_handler, bind, load. rewrite Hp. cbv zeta.
  unfold is_u16 in Hh. pose proof (quot_bounds (height w) 2 ltac:(lia) ltac:(lia)).
  rewrite (u16_id (height w ÷ 2)) by (unfold is_u16; lia).
  replace (x w + width w - height w ÷ 2) with (x w + height w ÷ 2) by lia.
  rewrite Z.sub_diag. reflexivity.
Qed.
End slider_more.

(** ** More on the touch session *)

Section session_more.
Context {user : UserCode}.

(** X14.  While a touch is active with no widget latched, as after a press
    on empty space, pressed ticks do nothing at all, wherever they are: no
    widget is selected until the release. *)
Theorem press_on_nothing_locks_out ticks s :
  active_widget (ctx (mem s)) = None -> touch_active (ctx (mem s)) <> 0 ->
  Forall (fun t => tick_pressed t <> 0) ticks ->
  run_touches ticks s = Ok (tt, s).
Proof.
  intros Ha Ht Hall. induction Hall as [|t ticks Hpr _ IH]; [done|].
  cbn [run_touches]. unfold bind at 1.
  assert (lcd_ui_handle_touch (tick_x t) (tick_y t) (tick_pressed t) s = Ok (tt, s)) as ->.
  { unfold lcd_ui_handle_touch.
    destruct (Z.eqb_spec (tick_pressed t) 0) as [|_]; [done|]. cbn [negb].
    unfold bind at 1, get_ctx at 1.
    destruct (Z.eqb_spec (touch_active (ctx (mem s))) 0) as [|_]; [done|].
    unfold bind at 1, ret at 1, send_to_active_widget, bind, get_ctx. by rewrite Ha. }
  exact IH.
Qed.

(** X15.  A release tick with nothing latched, or with a latched widget
    that is not a button or has no touch callback, calls nothing: it only
    clears the session. *)
Theorem release_without_button_callback tx ty s :
  match active_widget (ctx (mem s)) with
  | Some p =>
    exists w, heap (mem s) !! p = Some w
              /\ (type w <> LCD_UI_WIDGET_BUTTON \/ on_touch w = None)
  | None => True
  end ->
  lcd_ui_handle_touch tx ty 0 s
  = Ok (tt, mk_world
              (mk_memory (set_active_widget None (set_touch_active 0 (ctx (mem s))))
                 (heap (mem s)))
              (log s)).
Proof.
  intros H. unfold lcd_ui_handle_touch. cbn [Z.eqb negb].
  unfold trigger_button_on_release.
  unfold bind at 1. unfold bind at 1, get_ctx at 1.
  destruct (active_widget (ctx (mem s))) as [p|]; [|reflexivity].
  destruct H as (w & Hp & Hw). unfold bind at 1, load at 1. rewrite Hp.
  destruct Hw as [Hw|Hw].
  - destruct (type w); try done; destruct (on_touch w); reflexivity.
  - rewrite Hw. destruct (type w); reflexivity.
Qed.
End session_more.

(** ** Runs of the touch normaliser *)

(** X16.  Over any run of samples from any stored state, pressed and
    released events balance: the number of pressed events plus one if the
    run started pressed equals the number of released events plus one if it
    ended pressed.  No held or double-tap event occurs, and each sample gives
    one event. *)
Theorem pressed_released_balance samples : forall context,
  let '(events, final) := process_samples context samples in
  count_events touch_ui_event_pressed events
  + Z.b2z (last_press_state (internal_state context))
  = count_events touch_ui_event_released events
    + Z.b2z (last_press_state (internal_state final))
  /\ count_events touch_ui_event_held events = 0
  /\ count_events touch_ui_event_double_tap events = 0
  /\ length events = length samples.
Proof.
  induction samples as [|[sx sy sp st] samples IH]; intros context; [done|].
  cbn [process_samples sample_x sample_y sample_pressed sample_time].
  destruct (touch_ui_process_input (Some context) sx sy sp st) as [evt after] eqn:E.
  assert (exists c', after = Some c'
            /\ last_press_state (internal_state c') = sp
            /\ is_event touch_ui_event_held evt = false
            /\ is_event touch_ui_event_double_tap evt = false
            /\ Z.b2z (is_event touch_ui_event_pressed evt)
               + Z.b2z (last_press_state (internal_state context))
               = Z.b2z (is_event touch_ui_event_released evt) + Z.b2z sp)
    as (c' & -> & Hsp & Hheld & Hdt & Hbal).
  { destruct context as [[was lx ly lts]].
    unfold touch_ui_process_input in E. cbn in E.
    destruct was, sp; cbn in E;
      try (destruct (negb (sx =? lx) || negb (sy =? ly)));
      injection E as <- <-; eexists; repeat split. }
  specialize (IH c'). destruct (process_samples c' samples) as [events final].
  destruct IH as (IH1 & IH2 & IH3 & IH4). rewrite Hsp in IH1.
  cbn [count_events]. rewrite Hheld, Hdt. cbn [Z.b2z length].
  repeat split; lia.
Qed.

(** ** The polling loop *)

Section polling.
Context {user : UserCode} {keeps : UserCodeKeepsSession user}.

Lemma touch_task_step_in_step touch_ctx reading s touch_ctx' s' :
  (touch_active (ctx (mem s)) <> 0
   <-> last_press_state (internal_state touch_ctx) = true) ->
  touch_task_step touch_ctx reading s = Ok (touch_ctx', s') ->
  (touch_active (ctx (mem s')) <> 0
   <-> last_press_state (internal_state touch_ctx') = true).
Proof.
  intros Hsync. destruct reading as [[sx sy sp st]|]; [|by intros [= <- <-]].
  unfold touch_task_step. cbn [sample_x sample_y sample_pressed sample_time].
  destruct touch_ctx as [[was lx ly lts]]. cbn in Hsync.
  unfold touch_ui_process_input. cbn -[lcd_ui_handle_touch].
  destruct was, sp; cbn -[lcd_ui_handle_touch].
  - (* down, down *)
    destruct (negb (sx =? lx) || negb (sy =? ly)); cbn -[lcd_ui_handle_touch].
    + intros H. apply bind_inv in H as ([] & s1 & H1 & [= <- <-]). cbn.
      apply pressed_tick_running in H1; [|done|tauto].
      injection H1 as _ ->. tauto.
    + intros [= <- <-]. cbn. tauto.
  - (* down, up *)
    intros H. apply bind_inv in H as ([] & s1 & H1 & [= <- <-]). cbn.
    apply release_tick_session in H1. injection H1 as _ ->. split; [done|discriminate].
  - (* up, down *)
    intros H. apply bind_inv in H as ([] & s1 & H1 & [= <- <-]). cbn.
    apply pressed_tick_touch_active in H1; [|done]. tauto.
  - (* up, up *)
    intros [= <- <-]. cbn. tauto.
Qed.

(** X17.  In the polling loop of the README, which dispatches a sample to
    [lcd_ui_handle_touch] only when the normaliser's event is not none, the
    two state machines stay in step: after every pass [touch_active] is true
    exactly when the normaliser's stored press flag is.  (User callbacks are
    taken not to write the session fields.) *)
Theorem touch_task_keeps_engines_in_step readings : forall touch_ctx s touch_ctx' s',
  (touch_active (ctx (mem s)) <> 0
   <-> last_press_state (internal_state touch_ctx) = true) ->
  touch_task touch_ctx readings s = Ok (touch_ctx', s') ->
  (touch_active (ctx (mem s')) <> 0
   <-> last_press_state (internal_state touch_ctx') = true).
Proof.
  induction readings as [|r readings IH]; intros tc s tc' s' Hsync; cbn [touch_task].
  - by intros [= <- <-].
  - intros H. apply bind_inv in H as (tc1 & s1 & H1 & H).
    eapply IH; [|done]. eapply touch_task_step_in_step; eauto.
Qed.
End polling.

(** ** A whole tap *)

Section tap.
Context {user : UserCode}.

(** X18.  A whole tap: on an idle registry, a press whose first hit is a
    button with a touch callback, then any pressed ticks, then a release at
    (rx, ry) calls the callback exactly once, on (rx, ry), after latching the
    button, and leaves the session cleared. *)
Theorem tap_fires_button_once s ps p w f tx ty pr ticks rx ry :
  registered (mem s) ps -> touch_active (ctx (mem s)) = 0 ->
  first_hit (heap (mem s)) wrapped_expanded_box ps tx ty = Some p ->
  heap (mem s) !! p = Some w ->
  type w = LCD_UI_WIDGET_BUTTON -> on_touch w = Some f ->
  pr <> 0 -> Forall (fun t => tick_pressed t <> 0) ticks ->
  let pressed :=
    mk_world
      (mk_memory (set_active_widget (Some p) (set_touch_active 1 (ctx (mem s))))
         (heap (mem s)))
      (log s) in
  run_touches (mk_tick tx ty pr :: ticks ++ [mk_tick rx ry 0]) s
  = Ok (tt, released_after f p rx ry (user_data w) pressed)
  /\ log (released_after f p rx ry (user_data w) pressed)
     = log s ++ [CallOnTouch f p rx ry (user_data w)].
Proof.
  intros (Hcount & Hu8 & Hslots & Hheap) Hidle Hhit Hp Hty Hf Hpr Hall pressed.
  split; [|reflexivity]. unfold is_u8 in Hu8.
  assert (lcd_ui_handle_touch tx ty pr s = Ok (tt, pressed)) as Hpress.
  { unfold lcd_ui_handle_touch.
    destruct (Z.eqb_spec pr 0) as [|_]; [done|]. cbn [negb].
    unfold bind at 1, get_ctx at 1. rewrite Hidle. cbn [Z.eqb].
    assert (find_widget_under_touch tx ty s = Ok (tt, pressed)) as Hfind.
    { unfold find_widget_under_touch.
      unfold bind at 1, modify_ctx at 1. unfold bind at 1, modify_ctx at 1.
      unfold bind at 1, get_ctx at 1. cbn [mem ctx widget_count set_active_widget
        set_touch_active]. rewrite Hcount, Nat2Z.id.
      rewrite hit_test_loop_spec; cbn [mem ctx heap widgets set_active_widget
        set_touch_active]; [|done|done|lia|lia].
      by rewrite Hhit. }
    rewrite (bind_ok _ _ _ _ _ Hfind).
    unfold send_to_active_widget. unfold bind at 1, get_ctx at 1.
    cbn [pressed mem ctx active_widget set_active_widget].
    unfold bind at 1, load at 1. change (heap (mem pressed)) with (heap (mem s)).
    by rewrite Hp, Hty. }
  cbn [run_touches tick_x tick_y tick_pressed]. rewrite (bind_ok _ _ _ _ _ Hpress).
  rewrite (pressed_ticks_on_button ticks pressed p w eq_refl ltac:(done) Hp Hty Hall).
  cbn [run_touches tick_x tick_y tick_pressed]. unfold bind at 1.
  by rewrite (release_tick_button rx ry pressed p w f eq_refl Hp Hty Hf).
Qed.
End tap.

Lemma tap_fires_button_once_witness :
  run_touches (user := demo_user)
    (mk_tick 60 60 1 :: [mk_tick 61 61 1] ++ [mk_tick 200 20 0]) overlap_booted
  = Ok (tt, released_after (user := demo_user) 8 4 200 20 None
              (mk_world
                 (mk_memory
                    (set_active_widget (Some 4%positive)
                       (set_touch_active 1 (ctx (mem overlap_booted))))
                    (heap (mem overlap_booted)))
                 (log overlap_booted))).
Proof.
  apply (tap_fires_button_once (user := demo_user) overlap_booted
           [4; 1]%positive 4%positive button_b 8%positive 60 60 1
           [mk_tick 61 61 1] 200 20 overlap_booted_registered);
    try (by vm_compute).
  repeat constructor; by vm_compute.
Defined.

(** ** Instances of the further properties *)

Lemma argb_decompose_make_witness :
  decompose_argb_colour (make_argb_colour 255 128 128 128)
  = mk_argb_colour 255 128 128 128
  /\ is_u32 (make_argb_colour 255 128 128 128).
Proof. apply (argb_decompose_make 255 128 128 128); by vm_compute. Defined.

Lemma argb_make_decompose_witness :
  make_argb_colour (alpha_value (decompose_argb_colour colour_yellow))
    (red_value (decompose_argb_colour colour_yellow))
    (green_value (decompose_argb_colour colour_yellow))
    (blue_value (decompose_argb_colour colour_yellow))
  = colour_yellow.
Proof. apply (argb_make_decompose colour_yellow). by vm_compute. Defined.

Lemma clear_widgets_empties_registry_witness :
  exists s',
    lcd_ui_clear_widgets demo_booted = Ok (tt, s')
    /\ widget_count (ctx (mem s')) = 0
    /\ widgets (ctx (mem s')) = replicate 5 None
    /\ widget_capacity (ctx (mem s')) = 5
    /\ heap (mem s') = heap (mem demo_booted)
    /\ log s' = log demo_booted.
Proof.
  apply (clear_widgets_empties_registry demo_booted); by vm_compute.
Defined.

Lemma clear_widgets_overruns_short_buffer_witness :
  lcd_ui_clear_widgets short_buffer = Fault OutOfBounds.
Proof. apply (clear_widgets_overruns_short_buffer short_buffer). by vm_compute. Defined.

Lemma clear_widgets_keeps_touch_session_witness :
  widget_count (ctx (mem (state_after lcd_ui_clear_widgets slider_latched))) = 0
  /\ active_widget (ctx (mem (state_after lcd_ui_clear_widgets slider_latched)))
     = Some 2%positive
  /\ lcd_ui_handle_touch (user := demo_user) 70 210 1
       (state_after lcd_ui_clear_widgets slider_latched)
     = default_slider_touch_handler (user := demo_user) (Some 2%positive) 70 210
         (Some 3%positive) (state_after lcd_ui_clear_widgets slider_latched).
Proof.
  apply (clear_widgets_keeps_touch_session (user := demo_user) slider_latched
           (state_after lcd_ui_clear_widgets slider_latched) 2%positive
           (set_progress_percent 50 (set_slider_value 50 slider_s)) 70 210 1);
    by vm_compute.
Defined.

Lemma init_then_add_registers_witness :
  exists s',
    (lcd_ui_init (Some demo_driver) (Some (replicate 5 None)) 5 ;;
     add_widgets (Some <$> [1; 2; 3]%positive)) demo_start = Ok (tt, s')
    /\ registered (mem s') [1; 2; 3]%positive
    /\ widgets (ctx (mem s')) = (Some <$> [1; 2; 3]%positive) ++ [None; None]
    /\ session (mem s') = (None, 0)
    /\ heap (mem s') = heap (mem demo_start).
Proof.
  apply (init_then_add_registers demo_driver (replicate 5 None) 5
           [1; 2; 3]%positive demo_start); [by vm_compute|by vm_compute|].
  intros p Hp. apply list_elem_of_In in Hp. cbn in Hp.
  destruct Hp as [<-|[<-|[<-|[]]]];
    eexists; (split; [reflexivity|]); by vm_compute.
Defined.

Lemma lighten_darken_saturate_witness :
  lighten_colour (scaling := demo_scaling) colour_gray 200
  = scale_colour_by_percentage (ColourScaling := demo_scaling) colour_gray 200
  /\ darken_colour (scaling := demo_scaling) colour_gray 200
     = scale_colour_by_percentage (ColourScaling := demo_scaling) colour_gray 0.
Proof.
  apply (lighten_darken_saturate (scaling := demo_scaling) colour_gray 200).
  by vm_compute.
Defined.

Lemma render_paints_in_registration_order_witness :
  lcd_ui_render (font := demo_font) (scaling := demo_scaling) overlap_booted
  = Ok (draw_widget (font := demo_font) (scaling := demo_scaling)
          (ctx (mem overlap_booted)) (Some button_b)
        ++ draw_widget (font := demo_font) (scaling := demo_scaling)
             (ctx (mem overlap_booted)) (Some button_a),
        overlap_booted).
Proof.
  rewrite (render_paints_in_registration_order (font := demo_font)
             (scaling := demo_scaling) overlap_booted [4; 1]%positive demo_driver
             overlap_booted_registered eq_refl).
  reflexivity.
Defined.

Lemma button_label_is_centred_witness :
  draw_widget (font := demo_font) (scaling := demo_scaling)
    (ctx (mem demo_booted)) (Some button_a)
  = [DrawRect 50 50 80 40 0; DrawText 73 58 "OK" 0 0 LCD_UI_ALIGN_LEFT].
Proof.
  apply (button_label_is_centred (font := demo_font) (scaling := demo_scaling)
           (ctx (mem demo_booted)) demo_driver button_a "OK");
    by vm_compute.
Defined.

Lemma progress_bar_fill_within_bar_witness :
  draw_widget (font := demo_font) (scaling := demo_scaling)
    (ctx (mem demo_booted)) (Some bar_40)
  = [DrawRect 0 240 100 10 0; DrawRect 0 240 40 10 0].
Proof.
  apply (progress_bar_fill_within_bar (font := demo_font) (scaling := demo_scaling)
           (ctx (mem demo_booted)) demo_driver bar_40);
    by vm_compute.
Defined.

Lemma slider_knob_within_widget_witness :
  draw_widget (font := demo_font) (scaling := demo_scaling)
    (ctx (mem demo_booted)) (Some slider_50)
  = [DrawRect 0 200 100 20 0; DrawRect 0 207 100 6 0;
     DrawRect 40 200 20 20
       (lighten_colour (scaling := demo_scaling) (text_color slider_50) 40)].
Proof.
  apply (slider_knob_within_widget (font := demo_font) (scaling := demo_scaling)
           (ctx (mem demo_booted)) demo_driver slider_50);
    by vm_compute.
Defined.

Lemma default_slider_value_in_range_witness :
  exists s' v,
    default_slider_touch_handler (user := demo_user) (Some 2%positive) 30 210
      (Some 3%positive) demo_booted = Ok (tt, s')
    /\ slider_value_at s' 2%positive = Some v
    /\ 0 <= v <= 100
    /\ forall q, Some 3%positive = Some q ->
         progress_percent <$> heap (mem s') !! q = Some (100 - v).
Proof.
  apply (default_slider_value_in_range (keeps := demo_user_keeps_slider_values)
           demo_booted 2%positive slider_s 30 210 (Some 3%positive));
    try (by vm_compute).
  intros q [= <-]. eexists. vm_compute. reflexivity.
Defined.

Lemma default_slider_divides_by_zero_witness :
  default_slider_touch_handler (user := demo_user) (Some 1%positive) 15 15 None
    (state_after edge_boot (edge_start square_slider)) = Fault DivByZero.
Proof.
  apply (default_slider_divides_by_zero (user := demo_user)
           (state_after edge_boot (edge_start square_slider)) 1%positive
           square_slider 15 15 None); by vm_compute.
Defined.

Lemma press_on_nothing_locks_out_witness :
  run_touches (user := demo_user) [mk_tick 60 60 1; mk_tick 50 210 1] nothing_pressed
  = Ok (tt, nothing_pressed).
Proof.
  apply (press_on_nothing_locks_out (user := demo_user)
           [mk_tick 60 60 1; mk_tick 50 210 1] nothing_pressed);
    [by vm_compute|by vm_compute|].
  repeat constructor; by vm_compute.
Defined.

(** Scenario 5: the slider is latched and the finger is lifted far away. *)
Lemma release_without_button_callback_witness :
  lcd_ui_handle_touch (user := demo_user) 700 400 0 slider_latched
  = Ok (tt, mk_world
              (mk_memory
                 (set_active_widget None
                    (set_touch_active 0 (ctx (mem slider_latched))))
                 (heap (mem slider_latched)))
              (log slider_latched)).
Proof.
  apply (release_without_button_callback (user := demo_user) 700 400 slider_latched).
  eexists. split; [vm_compute; reflexivity|]. left. by vm_compute.
Defined.

Lemma touch_task_keeps_engines_in_step_witness :
  let r := touch_task (user := demo_user) touch_ui_init demo_readings demo_booted in
  match r with
  | Ok (touch_ctx', s') =>
    touch_active (ctx (mem s')) <> 0
    <-> last_press_state (internal_state touch_ctx') = true
  | Fault _ => False
  end.
Proof.
  intros r.
  destruct r as [[touch_ctx' s']|f] eqn:E; [|by vm_compute in E].
  apply (touch_task_keeps_engines_in_step (keeps := demo_user_keeps_session)
           demo_readings touch_ui_init demo_booted touch_ctx' s');
    [by vm_compute|exact E].
Defined.
